(** * FlavourQuest: the retry decorator, the recipe repository and the fetch

    A shallow embedding of [FlavourQuest.py].  Python code that mutates
    state and raises exceptions is written in a state-and-exception monad
    in which, as in Python, the mutations made before an exception is
    raised stay in place.  *)

From Stdlib Require Import String Ascii List ZArith Lia Bool Arith.
From Stdlib Require Import DecimalString.
From Stdlib Require Import Sorted Permutation OrderedTypeEx.
Import ListNotations.

Open Scope string_scope.
Open Scope list_scope.
Open Scope Z_scope.

(* ===================================================================== *)
(** * Python values, exceptions and effects *)
(* ===================================================================== *)

Module Python.

(** An instance of (a subclass of) [Exception]: its class name, the text
    [str(e)] gives, and [__context__], the exception that was being
    handled when this one was raised. *)
#[warnings="-register-all"] Inductive exn : Type :=
| Exn (cls : string) (msg : string) (context : option exn).

Definition exc_class (e : exn) : string := let 'Exn c _ _ := e in c.
Definition str (e : exn) : string := let 'Exn _ m _ := e in m.


(** Raising [e] inside an [except] block that handles [handled]. *)
Definition with_context (handled e : exn) : exn :=
  let 'Exn c m _ := e in Exn c m (Some handled).

(** A computation over a mutable state [S]: it returns normally with a
    value ([inr]) or raises ([inl]); the state it leaves is kept either
    way. *)
Definition Py (S A : Type) : Type := S -> (exn + A) * S.

Definition ret {S A} (a : A) : Py S A := fun s => (inr a, s).

Definition raise {S A} (e : exn) : Py S A := fun s => (inl e, s).

Definition bind {S A B} (c : Py S A) (k : A -> Py S B) : Py S B :=
  fun s =>
    match c s with
    | (inr a, s') => k a s'
    | (inl e, s') => (inl e, s')
    end.

(** [try: c  except Exception as e: handler e] *)
Definition try_except {S A} (c : Py S A) (handler : exn -> Py S A) : Py S A :=
  fun s =>
    match c s with
    | (inr a, s') => (inr a, s')
    | (inl e, s') =>
        match handler e s' with
        | (inr a, s'') => (inr a, s'')
        | (inl e', s'') => (inl (with_context e e'), s'')
        end
    end.

Definition gets {S A} (f : S -> A) : Py S A := fun s => (inr (f s), s).

Definition modify {S} (f : S -> S) : Py S unit := fun s => (inr tt, f s).

(** [sep.join(items)] *)
Fixpoint join (sep : string) (items : list string) : string :=
  match items with
  | [] => ""
  | [x] => x
  | x :: rest => (x ++ sep ++ join sep rest)%string
  end.

(** [str(n)] for an [int]. *)
Definition str_int (n : Z) : string := NilZero.string_of_int (Z.to_int n).

(** [d.get(key, default)] on the outcome of looking [key] up. *)
Definition dict_get {A} (entry : option A) (default : A) : A :=
  match entry with
  | Some v => v
  | None => default
  end.

(** [l.remove(x)]: drops the first item equal to [x]; [None] stands for
    the [ValueError] raised when there is none. *)
Fixpoint list_remove (x : nat) (l : list nat) : option (list nat) :=
  match l with
  | [] => None
  | y :: rest =>
      if Nat.eqb y x then Some rest
      else match list_remove x rest with
           | Some rest' => Some (y :: rest')
           | None => None
           end
  end.

End Python.

Import Python.

Declare Scope py_scope.
Delimit Scope py_scope with py.
Notation "x <- c ;; k" := (bind c (fun x => k))
  (at level 100, c at next level, right associativity) : py_scope.
Notation "c ;; k" := (bind c (fun _ => k))
  (at level 100, right associativity) : py_scope.
Open Scope py_scope.

(* ===================================================================== *)
(** * The retry decorator (lines 17-32) *)
(* ===================================================================== *)

Module Retry.

(** What the wrapper does that can be seen from outside: an invocation of
    the wrapped function, a line on standard output, a [time.sleep]. *)
Inductive effect : Type :=
| Call
| Print (line : string)
| Sleep (secs : Z).

(** The wrapped function acts on a world [W]; the process adds to it the
    chronological record of the wrapper's effects. *)
Record Proc (W : Type) : Type := mkProc { world : W; trace : list effect }.
Arguments mkProc {W} _ _.
Arguments world {W} _.
Arguments trace {W} _.

Definition emit {W} (ev : effect) : Py (Proc W) unit :=
  modify (fun p => mkProc (world p) (trace p ++ [ev])).

Definition print {W} (line : string) : Py (Proc W) unit := emit (Print line).

(** The longest sleep, in seconds: [time.sleep] turns its argument into a
    signed 64-bit count of nanoseconds before it does anything else. *)
Definition sleep_limit : Z := 9223372036.

(** [time.sleep(secs)] for an [int]: the conversion overflows beyond the
    limit in either direction; a negative length that converts is
    refused. *)
Definition time_sleep {W} (secs : Z) : Py (Proc W) unit :=
  if (secs <? - sleep_limit) || (sleep_limit <? secs)
  then raise (Exn "OverflowError" "timestamp too large to convert to C _PyTime_t" None)
  else if secs <? 0
  then raise (Exn "ValueError" "sleep length must be non-negative" None)
  else emit (Sleep secs).

(** [raise last_exception]; raising [None] is itself a [TypeError]. *)
Definition raise_value {S A} (last_exception : option exn) : Py S A :=
  match last_exception with
  | Some e => raise e
  | None => raise (Exn "TypeError" "exceptions must derive from BaseException" None)
  end.

Definition retry_message (e : exn) (delay : Z) : string :=
  ("An error occurred: " ++ str e ++ ". Retrying in " ++ str_int delay ++ " seconds.")%string.

Section Wrapper.
Context {W A : Type}.
Variable attempts delay : Z.
Variable func : Py W A.

(** The call of the wrapped function, recorded. *)
Definition invoke : Py (Proc W) A :=
  fun p =>
    let (r, w') := func (world p) in
    (r, mkProc w' (trace p ++ [Call])).

(** One pass through the body of the [for] loop: either the function
    returned ([inl]) or its exception was caught, reported and slept on
    ([inr], the new [last_exception]). *)
Definition attempt : Py (Proc W) (A + exn) :=
  try_except
    (a <- invoke ;; ret (inl a))
    (fun e =>
       print (retry_message e delay) ;;
       time_sleep delay ;;
       ret (inr e)).

(** [for _ in range(k): ...] followed by [raise last_exception]. *)
Fixpoint retry_loop (k : nat) (last_exception : option exn) : Py (Proc W) A :=
  match k with
  | O => raise_value last_exception
  | S k' =>
      r <- attempt ;;
      match r with
      | inl a => ret a
      | inr e => retry_loop k' (Some e)
      end
  end.

Definition retry_logic : Py (Proc W) A :=
  retry_loop (Z.to_nat attempts) None.

(** The world after the first [k] invocations, and the outcome of the
    invocation that follows them (invocation number [k + 1]). *)
Fixpoint world_after (k : nat) (w : W) : W :=
  match k with
  | O => w
  | S k' => world_after k' (snd (func w))
  end.

Definition outcome (k : nat) (w : W) : exn + A := fst (func (world_after k w)).

(** The operation fails on each of its first [k] invocations. *)
Definition fails_first (k : nat) (w : W) : Prop :=
  forall i, (i < k)%nat -> exists e, outcome i w = inl e.

(** The operation fails on every invocation. *)
Definition always_fails (w : W) : Prop :=
  forall i, exists e, outcome i w = inl e.

End Wrapper.

Definition retry {W A} (attempts delay : Z) (func : Py W A) : Py (Proc W) A :=
  retry_logic attempts delay func.

Definition is_call (ev : effect) : bool :=
  match ev with Call => true | _ => false end.

(** Number of invocations recorded in a trace. *)
Definition calls (tr : list effect) : nat := length (filter is_call tr).

(** The sleeps recorded in a trace, in order, with their lengths. *)
Fixpoint sleeps (tr : list effect) : list Z :=
  match tr with
  | [] => []
  | Sleep d :: rest => d :: sleeps rest
  | _ :: rest => sleeps rest
  end.


End Retry.

(* ===================================================================== *)
(** * Recipes and the rows of the [recipes] table *)
(* ===================================================================== *)

Module Recipe.

(** An entry of [extendedIngredients]. *)
Record Ingredient : Type := mkIngredient { original : string }.

(** A recipe dictionary as the API delivers it.  [instructions] is
    [None] when the key is absent; when the key is present its value is a
    string or JSON [null] (the inner [None]). *)
Record t : Type := mk {
  title : string;
  extendedIngredients : list Ingredient;
  instructions : option (option string);
  sourceUrl : string
}.

End Recipe.

Module Row.

(** A row of
    [recipes(id SERIAL PRIMARY KEY, title VARCHAR(255) NOT NULL,
             ingredients TEXT NOT NULL, instructions TEXT,
             source_url TEXT NOT NULL)]. *)
Record t : Type := mk {
  id : Z;
  title : string;
  ingredients : string;
  instructions : option string;
  source_url : string
}.

(** What [SELECT title, ingredients, instructions, source_url] gives for
    a row: the tuple the application lists and later hands to
    [delete_recipe]. *)
Definition listed : Type := string * string * option string * string.

Definition select (row : t) : listed :=
  (title row, ingredients row, instructions row, source_url row).

(** [recipe[0]] *)
Definition item0 (recipe : listed) : string :=
  let '(t0, _, _, _) := recipe in t0.

End Row.

(* ===================================================================== *)
(** * The repository (lines 55-106) *)
(* ===================================================================== *)

Module Store.

(** Observers are told apart by identity. *)
Definition Observer : Type := nat.

(** What the repository does on the side of the user interface: a
    [messagebox.showinfo] dialog, a call of an observer's [update]. *)
Inductive ui_event : Type :=
| ShowInfo (caption message : string)
| Update (observer : Observer).

(** The object: the table behind the connection with the sequence that
    feeds [id], the two handles of the driver, the observer list. *)
Record RecipeRepository : Type := mkRepository {
  recipes : list Row.t;
  recipes_id_seq : Z;
  connection_closed : bool;
  cursor_closed : bool;
  observers : list Observer
}.

(** The repository together with the observing side [V] and the record
    of user-interface events. *)
Record App (V : Type) : Type := mkApp {
  repository : RecipeRepository;
  view : V;
  events : list ui_event
}.
Arguments mkApp {V} _ _ _.
Arguments repository {V} _.
Arguments view {V} _.
Arguments events {V} _.

Definition with_repository {V} (f : RecipeRepository -> RecipeRepository) : Py (App V) unit :=
  modify (fun a => mkApp (f (repository a)) (view a) (events a)).

Definition set_recipes (rows : list Row.t) (seq : Z) (r : RecipeRepository) : RecipeRepository :=
  mkRepository rows seq (connection_closed r) (cursor_closed r) (observers r).

Definition set_observers (obs : list Observer) (r : RecipeRepository) : RecipeRepository :=
  mkRepository (recipes r) (recipes_id_seq r) (connection_closed r) (cursor_closed r) obs.

(** ** The database driver

    What the repository asks of psycopg2, on the table that
    [ensure_table_exists] declares. *)

(** [cursor.execute] and [cursor.fetchall] raise [InterfaceError] once
    the cursor or its connection has been closed. *)
Definition closed_cursor_error : exn := Exn "InterfaceError" "cursor already closed" None.

Definition cursor_usable {V} : Py (App V) unit :=
  fun a =>
    if cursor_closed (repository a) || connection_closed (repository a)
    then raise closed_cursor_error a
    else ret tt a.

(** A string stands for its UTF-8 encoding, byte by byte: a byte
    [10xxxxxx] continues the character the bytes before it began. *)
Definition is_continuation (c : ascii) : bool :=
  let 'Ascii _ _ _ _ _ _ b6 b7 := c in b7 && negb b6.

(** The number of characters, the first [n] characters, and what follows
    them. *)
Fixpoint char_length (s : string) : nat :=
  match s with
  | EmptyString => 0%nat
  | String c rest => if is_continuation c then char_length rest else S (char_length rest)
  end.

Fixpoint take_chars (n : nat) (s : string) : string :=
  match s with
  | EmptyString => EmptyString
  | String c rest =>
      if is_continuation c then String c (take_chars n rest)
      else match n with
           | O => EmptyString
           | S n' => String c (take_chars n' rest)
           end
  end.

Fixpoint drop_chars (n : nat) (s : string) : string :=
  match s with
  | EmptyString => EmptyString
  | String c rest =>
      if is_continuation c then drop_chars n rest
      else match n with
           | O => s
           | S n' => drop_chars n' rest
           end
  end.

Fixpoint all_spaces (s : string) : bool :=
  match s with
  | EmptyString => true
  | String c rest => Ascii.eqb c (ascii_of_nat 32) && all_spaces rest
  end.

(** The string holds the character NUL. *)
Fixpoint has_nul (s : string) : bool :=
  match s with
  | EmptyString => false
  | String c rest => Ascii.eqb c Ascii.zero || has_nul rest
  end.

(** The driver quotes every string parameter into the statement before it
    sends it, and refuses a string that holds NUL. *)
Definition nul_error : exn :=
  Exn "ValueError" "A string literal cannot contain NUL (0x00) characters." None.

Definition adapt_strings {V} (parameters : list string) : Py (App V) unit :=
  if existsb has_nul parameters then raise nul_error else ret tt.

(** What a [VARCHAR(n)] column takes for a string: the string when it
    has at most [n] characters, its first [n] characters when all that
    exceeds them is spaces, and nothing otherwise. *)
Definition varchar (n : nat) (s : string) : option string :=
  if (char_length s <=? n)%nat then Some s
  else if all_spaces (drop_chars n s) then Some (take_chars n s)
  else None.

Definition value_too_long : exn :=
  Exn "StringDataRightTruncation"
    ("value too long for type character varying(255)" ++ String (ascii_of_nat 10) "") None.

(** The string parameters of the [INSERT]: [None] goes as [NULL]. *)
Definition insert_parameters (title ingredients : string) (instructions : option string)
    (source_url : string) : list string :=
  [title; ingredients]
    ++ match instructions with Some text => [text] | None => [] end
    ++ [source_url].

(** [INSERT INTO recipes (title, ingredients, instructions, source_url)
    VALUES (%s, %s, %s, %s)]: the row takes the next value of the
    sequence and, for its title, what [VARCHAR(255)] takes of the
    parameter; a title the column does not take is refused. *)
Definition execute_insert {V} (title ingredients : string) (instructions : option string)
    (source_url : string) : Py (App V) unit :=
  cursor_usable ;;
  adapt_strings (insert_parameters title ingredients instructions source_url) ;;
  match varchar 255 title with
  | None => raise value_too_long
  | Some stored =>
      with_repository (fun r =>
        set_recipes
          (recipes r ++ [Row.mk (recipes_id_seq r) stored ingredients instructions source_url])
          (recipes_id_seq r + 1) r)
  end.

(** [DELETE FROM recipes WHERE title = %s] *)
Definition execute_delete {V} (title : string) : Py (App V) unit :=
  cursor_usable ;;
  adapt_strings [title] ;;
  with_repository (fun r =>
    set_recipes
      (filter (fun row => negb (String.eqb (Row.title row) title)) (recipes r))
      (recipes_id_seq r) r).

(** [SELECT title, ingredients, instructions, source_url FROM recipes]
    followed by [fetchall()]. *)
Definition execute_select {V} : Py (App V) (list Row.listed) :=
  cursor_usable ;;
  gets (fun a => map Row.select (recipes (repository a))).

(** ** The user interface *)

Definition messagebox_showinfo {V} (caption message : string) : Py (App V) unit :=
  modify (fun a => mkApp (repository a) (view a) (events a ++ [ShowInfo caption message])).

(** ** The methods *)

(** [RecipeRepository(db_config)] on a database that holds [rows]. *)
Definition init (rows : list Row.t) (seq : Z) : RecipeRepository :=
  mkRepository rows seq false false [].

Section Methods.
Context {V : Type}.

(** [observer.update()]: the observers are outside the repository; an
    update acts on the observing side and may raise. *)
Variable update : Observer -> Py V unit.

Definition call_update (o : Observer) : Py (App V) unit :=
  fun a =>
    let (r, v') := update o (view a) in
    (r, mkApp (repository a) v' (events a ++ [Update o])).

(** [for observer in obs: observer.update()] *)
Fixpoint notify_loop (obs : list Observer) : Py (App V) unit :=
  match obs with
  | [] => ret tt
  | o :: rest => call_update o ;; notify_loop rest
  end.

Definition notify_observers : Py (App V) unit :=
  fun a => notify_loop (observers (repository a)) a.

Definition save_recipe (recipe : Recipe.t) : Py (App V) unit :=
  let ingredients :=
    join ", " (map Recipe.original (Recipe.extendedIngredients recipe)) in
  let instructions :=
    dict_get (Recipe.instructions recipe) (Some "No instructions provided.") in
  execute_insert (Recipe.title recipe) ingredients instructions (Recipe.sourceUrl recipe) ;;
  messagebox_showinfo "Save Successful" "The recipe was saved successfully." ;;
  notify_observers.

Definition get_all_recipes : Py (App V) (list Row.listed) :=
  execute_select.

Definition delete_recipe (recipe : Row.listed) : Py (App V) unit :=
  execute_delete (Row.item0 recipe) ;;
  messagebox_showinfo "Delete Successful" "The recipe was deleted successfully." ;;
  notify_observers.

Definition close : Py (App V) unit :=
  with_repository (fun r =>
    mkRepository (recipes r) (recipes_id_seq r) (connection_closed r) true (observers r)) ;;
  with_repository (fun r =>
    mkRepository (recipes r) (recipes_id_seq r) true (cursor_closed r) (observers r)).

Definition register_observer (observer : Observer) : Py (App V) unit :=
  with_repository (fun r => set_observers (observers r ++ [observer]) r).

Definition remove_observer (observer : Observer) : Py (App V) unit :=
  fun a =>
    match list_remove observer (observers (repository a)) with
    | Some obs => with_repository (set_observers obs) a
    | None => raise (Exn "ValueError" "list.remove(x): x not in list" None) a
    end.

(** No update of an observer in [obs] raises. *)
Definition quiet (obs : list Observer) : Prop :=
  forall o v, In o obs -> fst (update o v) = inr tt.

End Methods.

(** The row [save_recipe] makes of a recipe under the id [id]. *)
Definition saved_row (id : Z) (recipe : Recipe.t) : Row.t :=
  Row.mk id (Recipe.title recipe)
    (join ", " (map Recipe.original (Recipe.extendedIngredients recipe)))
    (dict_get (Recipe.instructions recipe) (Some "No instructions provided."))
    (Recipe.sourceUrl recipe).

(** The same row with the title the column took. *)
Definition stored_row (id : Z) (recipe : Recipe.t) (stored : string) : Row.t :=
  Row.mk id stored
    (join ", " (map Recipe.original (Recipe.extendedIngredients recipe)))
    (dict_get (Recipe.instructions recipe) (Some "No instructions provided."))
    (Recipe.sourceUrl recipe).

(** None of the strings [save_recipe] hands to the driver for the recipe
    holds NUL. *)
Definition storable (recipe : Recipe.t) : bool :=
  negb (existsb has_nul
          (insert_parameters (Recipe.title recipe)
             (join ", " (map Recipe.original (Recipe.extendedIngredients recipe)))
             (dict_get (Recipe.instructions recipe) (Some "No instructions provided."))
             (Recipe.sourceUrl recipe))).

(** The rows a [DELETE ... WHERE title = %s] leaves. *)
Definition other_titles (title : string) (rows : list Row.t) : list Row.t :=
  filter (fun row => negb (String.eqb (Row.title row) title)) rows.

(** Neither handle of the driver has been closed. *)
Definition is_open (r : RecipeRepository) : Prop :=
  cursor_closed r = false /\ connection_closed r = false.

(** The primary key: ids are pairwise distinct and below the sequence. *)
Definition consistent (r : RecipeRepository) : Prop :=
  NoDup (map Row.id (recipes r)) /\
  forall row, In row (recipes r) -> Row.id row < recipes_id_seq r.



(** How many times [o] stands in the observer list. *)
Definition registrations (o : Observer) (obs : list Observer) : nat :=
  length (filter (Nat.eqb o) obs).

End Store.

(* ===================================================================== *)
(** * Fetching a batch of recipes (lines 108-123) *)
(* ===================================================================== *)

Module Fetch.
Import Retry.

(** A decoded JSON document.  A number keeps its literal. *)
#[warnings="-register-all"] Inductive json : Type :=
| JNull
| JBool (b : bool)
| JNumber (literal : string)
| JString (s : string)
| JArray (items : list json)
| JObject (members : list (string * json)).

(** The value a decoded object holds for [key]: of members with the same
    name the last one stands. *)
Fixpoint lookup (key : string) (members : list (string * json)) : option json :=
  match members with
  | [] => None
  | (k, v) :: rest =>
      match lookup key rest with
      | Some v' => Some v'
      | None => if String.eqb k key then Some v else None
      end
  end.

(** [data[key]] for a string [key]. *)
Definition getitem {S} (data : json) (key : string) : Py S json :=
  match data with
  | JObject members =>
      match lookup key members with
      | Some v => ret v
      | None => raise (Exn "KeyError" ("'" ++ key ++ "'")%string None)
      end
  | JArray _ => raise (Exn "TypeError" "list indices must be integers or slices, not str" None)
  | JString _ => raise (Exn "TypeError" "string indices must be integers" None)
  | _ => raise (Exn "TypeError" "object is not subscriptable" None)
  end.

(** What [requests.get] hands back: the status and the body, decoded
    when it is JSON. *)
Record Response : Type := mkResponse {
  status_code : Z;
  json_body : option json
}.

(** [response.raise_for_status()] *)
Definition raise_for_status {S} (response : Response) : Py S unit :=
  if (400 <=? status_code response) && (status_code response <? 600)
  then raise (Exn "HTTPError" (str_int (status_code response)) None)
  else ret tt.

(** [response.json()] *)
Definition response_json {S} (response : Response) : Py S json :=
  match json_body response with
  | Some data => ret data
  | None => raise (Exn "JSONDecodeError" "Expecting value" None)
  end.

(** The module's globals [current_recipes] and [sort_order], the text
    widget, and how many requests have gone out. *)
Record Session (Tk : Type) : Type := mkSession {
  current_recipes : json;
  sort_order : string;
  output_text : Tk;
  requests_sent : nat
}.
Arguments mkSession {Tk} _ _ _ _.
Arguments current_recipes {Tk} _.
Arguments sort_order {Tk} _.
Arguments output_text {Tk} _.
Arguments requests_sent {Tk} _.

(** The session after [k] more requests that changed nothing else. *)
Definition requests_later {Tk} (k : nat) (s : Session Tk) : Session Tk :=
  mkSession (current_recipes s) (sort_order s) (output_text s) (requests_sent s + k).

Definition api_url (tags : string) : string :=
  ("https://api.spoonacular.com/recipes/random?number=5&tags=" ++ tags
     ++ "&apiKey=d233f6e9bbb94c2c82b6054f2152d214")%string.

Section Fetching.
Context {Tk : Type}.

(** The remote side: what the request number [i] to [url] meets, an
    exception of [requests.get] or a response. *)
Variable network : string -> nat -> exn + Response.

(** The rendering of [display_recipes] (lines 126-149): it reads the
    two globals, rewrites the widget and may raise. *)
Variable render : json -> string -> Py Tk unit.

Definition requests_get (url : string) : Py (Session Tk) Response :=
  fun s =>
    (network url (requests_sent s),
     mkSession (current_recipes s) (sort_order s) (output_text s) (S (requests_sent s))).

Definition display_recipes : Py (Session Tk) unit :=
  fun s =>
    let (r, tk') := render (current_recipes s) (sort_order s) (output_text s) in
    (r, mkSession (current_recipes s) (sort_order s) tk' (requests_sent s)).

Definition set_current_recipes (recipes : json) : Py (Session Tk) unit :=
  modify (fun s => mkSession recipes (sort_order s) (output_text s) (requests_sent s)).

(** The decorated function's own body. *)
Definition fetch_once (tags : string) : Py (Session Tk) unit :=
  let url := api_url tags in
  response <- requests_get url ;;
  raise_for_status response ;;
  data <- response_json response ;;
  recipes <- getitem data "recipes" ;;
  set_current_recipes recipes ;;
  display_recipes.

(** [@retry(attempts=3, delay=2)] *)
Definition fetch_and_display_recipes (tags : string) : Py (Proc (Session Tk)) unit :=
  retry 3 2 (fetch_once tags).

Definition toggle_sort_order : Py (Session Tk) unit :=
  modify (fun s =>
    mkSession (current_recipes s)
              (if String.eqb (sort_order s) "ASC" then "DESC" else "ASC")
              (output_text s) (requests_sent s)) ;;
  display_recipes.

End Fetching.

(** Three ways a response makes an attempt fail before anything is
    assigned: an error status, a body that is not JSON, a document without
    the [recipes] member.  A document that has the member but does not fit
    the recipe schema is not among them: the attempt assigns it and fails
    later, in the rendering. *)
Inductive failed_response : Response -> Prop :=
| error_status (r : Response) :
    400 <= status_code r < 600 -> failed_response r
| unparsable_body (r : Response) :
    json_body r = None -> failed_response r
| missing_recipes_field (r : Response) (members : list (string * json)) :
    json_body r = Some (JObject members) ->
    lookup "recipes" members = None ->
    failed_response r.

End Fetch.

(* ===================================================================== *)
(** * Concrete operations, recipes and stores *)
(* ===================================================================== *)

Module Examples.
Import Retry Store Fetch.

(** An operation that fails on every invocation, with an error that
    tells the invocations apart; its world counts them. *)
Definition failing_op : Py nat unit :=
  fun calls_so_far =>
    (inl (Exn "HTTPError" (str_int (Z.of_nat (S calls_so_far))) None), S calls_so_far).

(** An operation that fails twice and returns its count from then on. *)
Definition flaky_op : Py nat nat :=
  fun calls_so_far =>
    if (calls_so_far <? 2)%nat
    then (inl (Exn "ConnectionError" (str_int (Z.of_nat (S calls_so_far))) None), S calls_so_far)
    else (inr (S calls_so_far), S calls_so_far).

Definition soup : Recipe.t :=
  Recipe.mk "Soup" [Recipe.mkIngredient "1 l water"; Recipe.mkIngredient "salt"] None
    "https://example.org/soup".

Definition soup_row (id : Z) : Row.t :=
  Row.mk id "Soup" "1 l water, salt" (Some "No instructions provided.")
    "https://example.org/soup".

(** Observers whose [update] counts the refreshes of the view. *)
Definition counting_update : Observer -> Py nat unit :=
  fun _ refreshes => (inr tt, S refreshes).

(** A repository just opened on an empty table. *)
Definition fresh_app : App nat := mkApp (init [] 1) 0%nat [].

(** A remote side that answers every request with status 500, one that
    answers with a document without recipes, and a rendering that writes
    the batch into the widget. *)
Definition server_error : string -> nat -> exn + Response :=
  fun _ _ => inr (mkResponse 500 None).

Definition no_recipes : string -> nat -> exn + Response :=
  fun _ _ => inr (mkResponse 200 (Some (JObject [("status", JString "failure")]))).

Definition show_batch : json -> string -> Py (list json) unit :=
  fun batch _ _ => (inr tt, [batch]).

Definition earlier_batch : json :=
  JArray [JObject [("title", JString "Soup")]].

Definition session : Session (list json) :=
  mkSession earlier_batch "ASC" [earlier_batch] 0.

End Examples.

(* ===================================================================== *)
(** * The diagnostics of the retry decorator *)
(* ===================================================================== *)

Module RetryTrace.
Import Retry.


(** What [time.sleep] raises on a length it does not take. *)
Definition sleep_refusal (secs : Z) : exn :=
  if (secs <? - sleep_limit) || (sleep_limit <? secs)
  then Exn "OverflowError" "timestamp too large to convert to C _PyTime_t" None
  else Exn "ValueError" "sleep length must be non-negative" None.


End RetryTrace.

(* ===================================================================== *)
(** * Sessions of use of the repository *)
(* ===================================================================== *)

Module Usage.
Import Store.

(** A call on the repository, as a user of the class can make it. *)
Inductive command : Type :=
| Save (recipe : Recipe.t)
| Delete (recipe : Row.listed)
| ListAll
| Register (observer : Observer)
| Remove (observer : Observer)
| Close.

(** The state a call leaves, whether it returned or raised. *)
Definition after {V} (update : Observer -> Py V unit) (a : App V) (c : command) : App V :=
  match c with
  | Save recipe => snd (save_recipe update recipe a)
  | Delete recipe => snd (delete_recipe update recipe a)
  | ListAll => snd (get_all_recipes a)
  | Register o => snd (register_observer o a)
  | Remove o => snd (remove_observer o a)
  | Close => snd (close a)
  end.

(** A sequence of calls, one after the other. *)
Definition replay {V} (update : Observer -> Py V unit) (a : App V) (cs : list command) : App V :=
  fold_left (after update) cs a.

End Usage.

(* ===================================================================== *)
(** * More concrete observers, recipes and answers *)
(* ===================================================================== *)

Module MoreExamples.
Import Retry Store Fetch Usage.

(** Observer 13 raises whenever it is told; the others count. *)
Definition grumpy_update : Observer -> Py nat unit :=
  fun o refreshes =>
    if Nat.eqb o 13
    then (inl (Exn "RuntimeError" "the view is gone" None), refreshes)
    else (inr tt, S refreshes).

(** A string of [n] letters. *)
Fixpoint letters (n : nat) : string :=
  match n with
  | O => ""
  | S n' => String "a" (letters n')
  end.

(** A title of 255 letters and one space. *)
Definition padded_title : Recipe.t :=
  Recipe.mk (letters 255 ++ " ") [Recipe.mkIngredient "salt"] None "https://example.org/salt".

Definition endless_title : Recipe.t :=
  Recipe.mk (letters 256) [Recipe.mkIngredient "salt"] None "https://example.org/salt".

(** A remote side that fails once and then delivers a batch, one that
    always delivers it, one that is never reached, and a rendering that
    always raises. *)
Definition fresh_batch : json :=
  JArray [JObject [("title", JString "Stew")]].

Definition good_response : Response :=
  mkResponse 200 (Some (JObject [("recipes", fresh_batch)])).

Definition flaky_server : string -> nat -> exn + Response :=
  fun _ i => if Nat.eqb i 0 then inr (mkResponse 503 None) else inr good_response.

(** A remote side that delivers the batch once and answers 500 from then
    on. *)
Definition spoiled_server : string -> nat -> exn + Response :=
  fun _ i => if Nat.eqb i 0 then inr good_response else inr (mkResponse 500 None).

Definition good_server : string -> nat -> exn + Response :=
  fun _ _ => inr good_response.

Definition unreachable : string -> nat -> exn + Response :=
  fun _ _ => inl (Exn "ConnectionError" "Max retries exceeded" None).

Definition broken_rendering : json -> string -> Py (list json) unit :=
  fun _ _ tk => (inl (Exn "KeyError" "'extendedIngredients'" None), []).

Definition salad : Recipe.t :=
  Recipe.mk "Salad" [Recipe.mkIngredient "lettuce"] None "https://example.org/salad".

Definition stew : Recipe.t :=
  Recipe.mk "Stew" [Recipe.mkIngredient "beef"] (Some (Some "Simmer."))
    "https://example.org/stew".

End MoreExamples.

(* ===================================================================== *)
(** * The answers a fetch can meet *)
(* ===================================================================== *)

Module FetchCases.
Import Fetch.

(** The answers on which an attempt raises before the assignment to
    [current_recipes]: an exception of [requests.get], an error status, a
    body that is not JSON, a document that is not an object or has no
    [recipes] member. *)
Definition rejected (answer : exn + Response) : bool :=
  match answer with
  | inl _ => true
  | inr response =>
      ((400 <=? status_code response) && (status_code response <? 600))
      || match json_body response with
         | Some (JObject members) =>
             match lookup "recipes" members with
             | Some _ => false
             | None => true
             end
         | _ => true
         end
  end.

(** The batch an answer delivers, when it is not rejected. *)
Definition delivered (answer : exn + Response) : option json :=
  if rejected answer then None
  else match answer with
       | inr response =>
           match json_body response with
           | Some (JObject members) => lookup "recipes" members
           | _ => None
           end
       | inl _ => None
       end.

Definition flip (sort_order : string) : string :=
  if String.eqb sort_order "ASC" then "DESC" else "ASC".

End FetchCases.

(* ===================================================================== *)
(** * The window: what is shown and the callbacks (lines 126-203) *)
(* ===================================================================== *)

Module View.
Import Store.

Definition newline : string := String (ascii_of_nat 10) EmptyString.

(** The text widget [output_text]: whether it takes input, and what it
    holds in order, text and embedded windows. *)
Inductive widget_state : Type := NORMAL | DISABLED.

Inductive item : Type :=
| Text (chars : string)
| Link (url : string)
| SaveButton (recipe : Recipe.t)
| PdfButton (recipe : Recipe.t)
| DeleteButton (recipe : Row.listed).

Record ScrolledText : Type := mkText { state : widget_state; contents : list item }.

(** [output_text.config(state=st)] *)
Definition config (st : widget_state) (w : ScrolledText) : ScrolledText :=
  mkText st (contents w).

(** [output_text.delete(1.0, tk.END)] *)
Definition delete_all (w : ScrolledText) : ScrolledText := mkText (state w) [].

(** [output_text.insert(tk.END, text)] and
    [output_text.window_create(tk.END, window=...)], on the widget the
    code has set to [NORMAL] before. *)
Definition insert_end (it : item) (w : ScrolledText) : ScrolledText :=
  mkText (state w) (contents w ++ [it]).

(** How an f-string shows a value that is a string or [None]. *)
Definition str_text (v : option string) : string :=
  match v with
  | Some chars => chars
  | None => "None"
  end.

(** ** [display_recipes], on a batch of well-formed recipes *)

(** [sorted(current_recipes, key=lambda x: x['title'], reverse=...)].
    Python's sort decides by [<] on the keys and is stable; with
    [reverse] it reverses the list, sorts it and reverses the outcome.
    The stable arrangement is unique, so insertion gives it.  Titles
    compare as Python strings do, character by character by code, a
    proper prefix before its extensions. *)
Fixpoint insert_by_title (x : Recipe.t) (l : list Recipe.t) : list Recipe.t :=
  match l with
  | [] => [x]
  | y :: rest =>
      if String.ltb (Recipe.title y) (Recipe.title x)
      then y :: insert_by_title x rest
      else x :: y :: rest
  end.

Fixpoint sort_by_title (l : list Recipe.t) : list Recipe.t :=
  match l with
  | [] => []
  | x :: rest => insert_by_title x (sort_by_title rest)
  end.

Definition sorted (recipes : list Recipe.t) (reverse : bool) : list Recipe.t :=
  if reverse then rev (sort_by_title (rev recipes)) else sort_by_title recipes.

Definition recipe_text (i : Z) (recipe : Recipe.t) : string :=
  ("Recipe " ++ str_int i ++ ":" ++ newline
   ++ "Title: " ++ Recipe.title recipe ++ newline
   ++ "Ingredients: "
   ++ join ", " (map Recipe.original (Recipe.extendedIngredients recipe)) ++ newline
   ++ "Instructions: "
   ++ str_text (dict_get (Recipe.instructions recipe) (Some "Instructions not provided."))
   ++ newline
   ++ "Website: " ++ Recipe.sourceUrl recipe ++ newline)%string.

(** [for i, recipe in enumerate(sorted_recipes, start=i): ...] *)
Fixpoint show_recipes (i : Z) (recipes : list Recipe.t) (w : ScrolledText) : ScrolledText :=
  match recipes with
  | [] => w
  | recipe :: rest =>
      let w := insert_end (Text (recipe_text i recipe)) w in
      let w := insert_end (Link (Recipe.sourceUrl recipe)) w in
      let w := insert_end (SaveButton recipe) w in
      let w := insert_end (PdfButton recipe) w in
      let w := insert_end (Text (newline ++ newline)) w in
      show_recipes (i + 1) rest w
  end.

Definition display_recipes (current_recipes : list Recipe.t) (sort_order : string)
    (output_text : ScrolledText) : ScrolledText :=
  let w := config NORMAL output_text in
  let w := delete_all w in
  let sorted_recipes := sorted current_recipes (String.eqb sort_order "DESC") in
  let w := show_recipes 1 sorted_recipes w in
  config DISABLED w.

(** ** [display_all_recipes] and the callbacks *)

Definition row_text (i : Z) (recipe : Row.listed) : string :=
  let '(title, ingredients, instructions, source_url) := recipe in
  ("Recipe " ++ str_int i ++ ":" ++ newline
   ++ "Title: " ++ title ++ newline
   ++ "Ingredients: " ++ ingredients ++ newline
   ++ "Instructions: " ++ str_text instructions ++ newline
   ++ "Website: " ++ source_url ++ newline)%string.

(** [recipe[3]] *)
Definition item3 (recipe : Row.listed) : string :=
  let '(_, _, _, source_url) := recipe in source_url.

(** [for i, recipe in enumerate(recipes, start=i): ...] *)
Fixpoint show_rows (i : Z) (recipes : list Row.listed) (w : ScrolledText) : ScrolledText :=
  match recipes with
  | [] => w
  | recipe :: rest =>
      let w := insert_end (Text (row_text i recipe)) w in
      let w := insert_end (Link (item3 recipe)) w in
      let w := insert_end (DeleteButton recipe) w in
      let w := insert_end (Text (newline ++ newline)) w in
      show_rows (i + 1) rest w
  end.

(** The repository with its surroundings, and the widget. *)
Record Desk (V : Type) : Type := mkDesk { app : App V; output_text : ScrolledText }.
Arguments mkDesk {V} _ _.
Arguments app {V} _.
Arguments output_text {V} _.

Definition on_widget {V} (f : ScrolledText -> ScrolledText) : Py (Desk V) unit :=
  modify (fun d => mkDesk (app d) (f (output_text d))).

Definition on_repository {V A} (c : Py (App V) A) : Py (Desk V) A :=
  fun d => let (r, a') := c (app d) in (r, mkDesk a' (output_text d)).

Section Callbacks.
Context {V : Type}.
Variable update : Observer -> Py V unit.

Definition display_all_recipes : Py (Desk V) unit :=
  on_widget (config NORMAL) ;;
  on_widget delete_all ;;
  recipes <- on_repository get_all_recipes ;;
  on_widget (show_rows 1 recipes) ;;
  on_widget (config DISABLED).

Definition save_recipe_callback (recipe : Recipe.t) : Py (Desk V) unit :=
  on_repository (save_recipe update recipe).

(** [answer] is what the user replies to [messagebox.askyesno]. *)
Definition delete_recipe_callback (answer : bool) (recipe : Row.listed) : Py (Desk V) unit :=
  if answer
  then on_repository (delete_recipe update recipe) ;; display_all_recipes
  else ret tt.

End Callbacks.

(** The recipes the "Save Recipe" buttons of a widget are bound to, and
    the tuples its "Delete" buttons are bound to, top to bottom. *)
Fixpoint save_buttons (items : list item) : list Recipe.t :=
  match items with
  | [] => []
  | SaveButton recipe :: rest => recipe :: save_buttons rest
  | _ :: rest => save_buttons rest
  end.

Fixpoint delete_buttons (items : list item) : list Row.listed :=
  match items with
  | [] => []
  | DeleteButton recipe :: rest => recipe :: delete_buttons rest
  | _ :: rest => delete_buttons rest
  end.

(** No recipe comes after one with a greater title; no recipe comes
    after one with a smaller title. *)
Definition ascending (l : list Recipe.t) : Prop :=
  StronglySorted (fun x y => String.ltb (Recipe.title y) (Recipe.title x) = false) l.

Definition descending (l : list Recipe.t) : Prop :=
  StronglySorted (fun x y => String.ltb (Recipe.title x) (Recipe.title y) = false) l.

(** Every recipe has a smaller title than the ones after it. *)
Definition increasing (l : list Recipe.t) : Prop :=
  StronglySorted (fun x y => String.ltb (Recipe.title x) (Recipe.title y) = true) l.

Definition has_title (t : string) (recipe : Recipe.t) : bool :=
  String.eqb (Recipe.title recipe) t.

End View.

(* ===================================================================== *)
(** * Facts about the retry decorator *)
(* ===================================================================== *)

Module RetryFacts.
Import Retry.

Lemma calls_app (t1 t2 : list effect) : calls (t1 ++ t2) = (calls t1 + calls t2)%nat.
Proof. unfold calls. now rewrite filter_app, length_app. Qed.

Lemma sleeps_app (t1 t2 : list effect) : sleeps (t1 ++ t2) = sleeps t1 ++ sleeps t2.
Proof.
  induction t1 as [|ev t1 IH]; simpl; [reflexivity|].
  destruct ev; simpl; now rewrite IH.
Qed.

Lemma repeat_snoc {X} (x : X) (k : nat) : x :: repeat x k = repeat x k ++ [x].
Proof. induction k as [|k IH]; simpl; [reflexivity | now rewrite <- IH]. Qed.


(** The delay of the fetch is one [time.sleep] takes. *)
Lemma two_seconds : 0 <= 2 <= sleep_limit.
Proof. unfold sleep_limit. lia. Qed.

Section Loop.
Context {W A : Type}.
Variable delay : Z.
Variable func : Py W A.
Hypothesis delay_accepted : 0 <= delay <= sleep_limit.

(** A failed pass: one call, one report, one sleep, and the loop goes on
    with the exception remembered. *)
Lemma retry_loop_step_failure (k : nat) (last : option exn) (w w' : W) (tr : list effect) (e : exn) :
  func w = (inl e, w') ->
  retry_loop delay func (S k) last (mkProc w tr)
  = retry_loop delay func k (Some e)
      (mkProc w' (tr ++ [Call; Print (retry_message e delay); Sleep delay])).
Proof.
  intros Hf.
  assert (Ho : (delay <? - sleep_limit) || (sleep_limit <? delay) = false)
    by (apply orb_false_iff; split; apply Z.ltb_ge; unfold sleep_limit in *; lia).
  assert (Hd : (delay <? 0) = false) by (apply Z.ltb_ge; lia).
  simpl. unfold bind at 1. unfold attempt, try_except, bind, invoke. simpl.
  rewrite Hf. unfold print, time_sleep. rewrite Ho, Hd.
  unfold emit, modify, ret. simpl.
  now rewrite <- !app_assoc.
Qed.

(** A successful pass returns at once. *)
Lemma retry_loop_step_success (k : nat) (last : option exn) (w w' : W) (tr : list effect) (a : A) :
  func w = (inr a, w') ->
  retry_loop delay func (S k) last (mkProc w tr) = (inr a, mkProc w' (tr ++ [Call])).
Proof.
  intros Hf. simpl. unfold bind at 1. unfold attempt, try_except, bind, invoke. simpl.
  now rewrite Hf.
Qed.

Lemma outcome_shift (i : nat) (w : W) :
  outcome func (S i) w = outcome func i (snd (func w)).
Proof. reflexivity. Qed.

Lemma fails_first_shift (k : nat) (w : W) :
  fails_first func (S k) w -> fails_first func k (snd (func w)).
Proof. intros H i Hi. rewrite <- outcome_shift. apply H. lia. Qed.

(** The loop over an operation that fails [k] times in a row. *)
Lemma retry_loop_failures (k : nat) :
  forall (w : W) (tr : list effect) (last : option exn),
    fails_first func k w ->
    let run := retry_loop delay func k last (mkProc w tr) in
    world (snd run) = world_after func k w /\
    calls (trace (snd run)) = (calls tr + k)%nat /\
    sleeps (trace (snd run)) = sleeps tr ++ repeat delay k /\
    (forall e, match k with
               | O => last = Some e
               | S k' => outcome func k' w = inl e
               end -> fst run = inl e).
Proof.
  induction k as [|k IH]; intros w tr last Hfail; cbv zeta.
  - simpl. repeat split.
    + now destruct last.
    + destruct last; simpl; lia.
    + destruct last; simpl; now rewrite app_nil_r.
    + intros e ->. reflexivity.
  - destruct (Hfail 0%nat ltac:(lia)) as [e0 He0].
    unfold outcome in He0. simpl in He0.
    destruct (func w) as [r w'] eqn:Hf. simpl in He0. subst r.
    rewrite (retry_loop_step_failure k last w w' tr e0 Hf).
    pose proof (fails_first_shift k w Hfail) as Hfail'. rewrite Hf in Hfail'. simpl in Hfail'.
    destruct (IH w' (tr ++ [Call; Print (retry_message e0 delay); Sleep delay]) (Some e0) Hfail')
      as (Hw & Hc & Hs & Hr).
    repeat split.
    + rewrite Hw. simpl. now rewrite Hf.
    + rewrite Hc, calls_app. unfold calls at 2. simpl. lia.
    + rewrite Hs, sleeps_app. simpl. rewrite <- app_assoc. simpl. now rewrite repeat_snoc.
    + intros e He. apply Hr. destruct k as [|k'].
      * unfold outcome in He. simpl in He. rewrite Hf in He. simpl in He. congruence.
      * rewrite outcome_shift, Hf in He. exact He.
Qed.

(** The loop over an operation that fails [j] times and then succeeds,
    with more than [j] passes allowed. *)
Lemma retry_loop_success (j : nat) :
  forall (m : nat) (w : W) (tr : list effect) (last : option exn) (a : A),
    (j < m)%nat ->
    fails_first func j w ->
    outcome func j w = inr a ->
    let run := retry_loop delay func m last (mkProc w tr) in
    fst run = inr a /\
    world (snd run) = world_after func (S j) w /\
    calls (trace (snd run)) = (calls tr + S j)%nat /\
    sleeps (trace (snd run)) = sleeps tr ++ repeat delay j.
Proof.
  induction j as [|j IH]; intros m w tr last a Hm Hfail Hok; cbv zeta.
  - destruct m as [|m]; [lia|].
    unfold outcome in Hok. simpl in Hok.
    destruct (func w) as [r w'] eqn:Hf. simpl in Hok. subst r.
    rewrite (retry_loop_step_success m last w w' tr a Hf). simpl.
    rewrite Hf, calls_app, sleeps_app, app_nil_r. unfold calls at 2. simpl.
    repeat split; try reflexivity. now rewrite app_nil_r.
  - destruct m as [|m]; [lia|].
    destruct (Hfail 0%nat ltac:(lia)) as [e0 He0].
    unfold outcome in He0. simpl in He0.
    destruct (func w) as [r w'] eqn:Hf. simpl in He0. subst r.
    rewrite (retry_loop_step_failure m last w w' tr e0 Hf).
    pose proof (fails_first_shift j w Hfail) as Hfail'. rewrite Hf in Hfail'. simpl in Hfail'.
    rewrite outcome_shift, Hf in Hok. simpl in Hok.
    destruct (IH m w' (tr ++ [Call; Print (retry_message e0 delay); Sleep delay]) (Some e0) a
                ltac:(lia) Hfail' Hok) as (Hr & Hw & Hc & Hs).
    repeat split.
    + exact Hr.
    + rewrite Hw. simpl. now rewrite Hf.
    + rewrite Hc, calls_app. unfold calls at 2. simpl. lia.
    + rewrite Hs, sleeps_app. simpl. rewrite <- app_assoc. simpl. now rewrite repeat_snoc.
Qed.


End Loop.

End RetryFacts.

Module RetryClaims.
Import Retry RetryFacts Examples.

Section Failing.
Context {W A : Type}.
Variable n delay : Z.
Variable func : Py W A.
Variable w : W.
Variable tr : list effect.
Hypothesis at_least_one_attempt : 1 <= n.
Hypothesis delay_accepted : 0 <= delay <= sleep_limit.
Hypothesis failing : always_fails func w.






End Failing.







End RetryClaims.

(* ===================================================================== *)
(** * Facts about the repository *)
(* ===================================================================== *)

Module StoreFacts.
Import Store.



(** [join] is the concatenation with a separator of the standard
    library. *)
Lemma join_concat (sep : string) (items : list string) :
  join sep items = String.concat sep items.
Proof.
  induction items as [|x items IH]; [reflexivity|].
  destruct items as [|y items]; [reflexivity|].
  simpl in *. now rewrite IH.
Qed.


Section Methods.
Context {V : Type}.
Variable update : Observer -> Py V unit.

(** ** The notification loop *)

Lemma notify_loop_repository (obs : list Observer) :
  forall a : App V, repository (snd (notify_loop update obs a)) = repository a.
Proof.
  induction obs as [|o obs IH]; intros a; simpl; [reflexivity|].
  unfold bind, call_update. destruct (update o (view a)) as [[e|[]] v']; simpl.
  - reflexivity.
  - now rewrite IH.
Qed.

(** A loop that returns has called every observer of the list, in
    order. *)
Lemma notify_loop_returned (obs : list Observer) :
  forall a : App V,
    fst (notify_loop update obs a) = inr tt ->
    events (snd (notify_loop update obs a)) = events a ++ map Update obs.
Proof.
  induction obs as [|o obs IH]; intros a; simpl.
  - intros _. now rewrite app_nil_r.
  - unfold bind, call_update. destruct (update o (view a)) as [[e|[]] v']; simpl.
    + discriminate.
    + intros H. rewrite (IH _ H). simpl. now rewrite <- app_assoc.
Qed.

Lemma notify_loop_quiet (obs : list Observer) :
  quiet update obs ->
  forall a : App V, fst (notify_loop update obs a) = inr tt.
Proof.
  induction obs as [|o obs IH]; intros Hq a; simpl; [reflexivity|].
  unfold bind, call_update.
  pose proof (Hq o (view a) (or_introl eq_refl)) as Ho.
  destruct (update o (view a)) as [[e|[]] v']; simpl in *; [discriminate|].
  apply IH. intros o' v Hin. apply Hq. now right.
Qed.

(** ** The methods, step by step *)

Lemma adapt_one (title : string) (a : App V) :
  adapt_strings [title] a = if has_nul title then (inl nul_error, a) else (inr tt, a).
Proof. unfold adapt_strings. simpl. rewrite orb_false_r. now destruct (has_nul title). Qed.

Lemma storable_title (recipe : Recipe.t) :
  storable recipe = true -> has_nul (Recipe.title recipe) = false.
Proof.
  unfold storable, insert_parameters. simpl. intros H.
  apply negb_true_iff, orb_false_iff in H. apply H.
Qed.

Lemma varchar_fits (n : nat) (s : string) :
  (char_length s <= n)%nat -> varchar n s = Some s.
Proof. intros H. unfold varchar. now replace (char_length s <=? n)%nat with true
    by (symmetry; apply Nat.leb_le; exact H). Qed.

Lemma save_recipe_run (recipe : Recipe.t) (a : App V) :
  save_recipe update recipe a =
  if cursor_closed (repository a) || connection_closed (repository a)
  then (inl closed_cursor_error, a)
  else if storable recipe
  then match varchar 255 (Recipe.title recipe) with
       | None => (inl value_too_long, a)
       | Some stored =>
           notify_loop update (observers (repository a))
             (mkApp (set_recipes
                       (recipes (repository a)
                          ++ [stored_row (recipes_id_seq (repository a)) recipe stored])
                       (recipes_id_seq (repository a) + 1) (repository a))
                    (view a)
                    (events a ++ [ShowInfo "Save Successful"
                                           "The recipe was saved successfully."]))
       end
  else (inl nul_error, a).
Proof.
  unfold save_recipe, execute_insert, cursor_usable, bind.
  destruct (cursor_closed (repository a) || connection_closed (repository a)); [reflexivity|].
  unfold storable, adapt_strings.
  destruct (existsb has_nul
              (insert_parameters (Recipe.title recipe)
                 (join ", " (map Recipe.original (Recipe.extendedIngredients recipe)))
                 (dict_get (Recipe.instructions recipe) (Some "No instructions provided."))
                 (Recipe.sourceUrl recipe))); [reflexivity|].
  simpl. destruct (varchar 255 (Recipe.title recipe)); reflexivity.
Qed.

Lemma delete_recipe_run (recipe : Row.listed) (a : App V) :
  delete_recipe update recipe a =
  if cursor_closed (repository a) || connection_closed (repository a)
  then (inl closed_cursor_error, a)
  else if has_nul (Row.item0 recipe)
  then (inl nul_error, a)
  else notify_loop update (observers (repository a))
         (mkApp (set_recipes (other_titles (Row.item0 recipe) (recipes (repository a)))
                   (recipes_id_seq (repository a)) (repository a))
                (view a)
                (events a ++ [ShowInfo "Delete Successful"
                                       "The recipe was deleted successfully."])).
Proof.
  unfold delete_recipe, execute_delete, cursor_usable, bind.
  destruct (cursor_closed (repository a) || connection_closed (repository a)); [reflexivity|].
  simpl. rewrite adapt_one. destruct (has_nul (Row.item0 recipe)); reflexivity.
Qed.

Lemma get_all_recipes_run (a : App V) :
  get_all_recipes a =
  if cursor_closed (repository a) || connection_closed (repository a)
  then (inl closed_cursor_error, a)
  else (inr (map Row.select (recipes (repository a))), a).
Proof.
  unfold get_all_recipes, execute_select, cursor_usable, bind.
  destruct (cursor_closed (repository a) || connection_closed (repository a)); reflexivity.
Qed.

Lemma is_open_usable (r : RecipeRepository) :
  is_open r -> cursor_closed r || connection_closed r = false.
Proof. intros [-> ->]. reflexivity. Qed.

(** A save that returned found the store usable and its strings free of
    NUL, inserted its row with the title the column took, and ran the
    whole notification loop. *)
Lemma save_recipe_returned (recipe : Recipe.t) (a a' : App V) :
  save_recipe update recipe a = (inr tt, a') ->
  cursor_closed (repository a) || connection_closed (repository a) = false /\
  storable recipe = true /\
  (exists stored,
      varchar 255 (Recipe.title recipe) = Some stored /\
      repository a'
      = set_recipes
          (recipes (repository a) ++ [stored_row (recipes_id_seq (repository a)) recipe stored])
          (recipes_id_seq (repository a) + 1) (repository a)) /\
  events a'
  = events a ++ ShowInfo "Save Successful" "The recipe was saved successfully."
             :: map Update (observers (repository a)).
Proof.
  rewrite save_recipe_run.
  destruct (cursor_closed (repository a) || connection_closed (repository a)); [discriminate|].
  destruct (storable recipe); [|discriminate].
  destruct (varchar 255 (Recipe.title recipe)) as [stored|]; [|discriminate].
  intros H. split; [reflexivity|]. split; [reflexivity|].
  pose proof (f_equal fst H) as Hr. pose proof (f_equal snd H) as Hs. simpl in Hr, Hs.
  split.
  - exists stored. split; [reflexivity|].
    rewrite <- Hs, notify_loop_repository. reflexivity.
  - rewrite <- Hs, (notify_loop_returned _ _ Hr). simpl. now rewrite <- app_assoc.
Qed.

(** On an open store a recipe whose strings hold no NUL and whose title
    fits the column is inserted as it is, and the observers are told. *)
Lemma save_recipe_fitting (recipe : Recipe.t) (a : App V) :
  is_open (repository a) ->
  storable recipe = true ->
  (char_length (Recipe.title recipe) <= 255)%nat ->
  save_recipe update recipe a
  = notify_loop update (observers (repository a))
      (mkApp (set_recipes
                (recipes (repository a) ++ [saved_row (recipes_id_seq (repository a)) recipe])
                (recipes_id_seq (repository a) + 1) (repository a))
             (view a)
             (events a ++ [ShowInfo "Save Successful" "The recipe was saved successfully."])).
Proof.
  intros Hopen Hst Hlen.
  rewrite save_recipe_run, (is_open_usable _ Hopen), Hst, (varchar_fits _ _ Hlen).
  reflexivity.
Qed.

(** A save goes through on an open store when the strings hold no NUL,
    the title fits its column and no observer raises. *)
Lemma save_recipe_succeeds (recipe : Recipe.t) (a : App V) :
  is_open (repository a) ->
  storable recipe = true ->
  (char_length (Recipe.title recipe) <= 255)%nat ->
  quiet update (observers (repository a)) ->
  fst (save_recipe update recipe a) = inr tt.
Proof.
  intros Hopen Hst Hlen Hq. rewrite (save_recipe_fitting recipe a Hopen Hst Hlen).
  now apply notify_loop_quiet.
Qed.

(** A delete on an open store whose observers do not raise, with a title
    the driver takes. *)
Lemma delete_recipe_quiet (recipe : Row.listed) (a : App V) :
  is_open (repository a) ->
  quiet update (observers (repository a)) ->
  has_nul (Row.item0 recipe) = false ->
  fst (delete_recipe update recipe a) = inr tt /\
  repository (snd (delete_recipe update recipe a))
  = set_recipes (other_titles (Row.item0 recipe) (recipes (repository a)))
      (recipes_id_seq (repository a)) (repository a) /\
  events (snd (delete_recipe update recipe a))
  = events a ++ ShowInfo "Delete Successful" "The recipe was deleted successfully."
             :: map Update (observers (repository a)).
Proof.
  intros Hopen Hq Hnul. rewrite delete_recipe_run, (is_open_usable _ Hopen), Hnul.
  pose proof (notify_loop_quiet _ Hq) as Hok.
  split; [apply Hok|]. split.
  - now rewrite notify_loop_repository.
  - rewrite (notify_loop_returned _ _ (Hok _)). simpl. now rewrite <- app_assoc.
Qed.

(** A delete with a title that holds NUL is refused by the driver. *)
Lemma delete_recipe_refused (recipe : Row.listed) (a : App V) :
  is_open (repository a) ->
  has_nul (Row.item0 recipe) = true ->
  delete_recipe update recipe a = (inl nul_error, a).
Proof.
  intros Hopen Hnul. now rewrite delete_recipe_run, (is_open_usable _ Hopen), Hnul.
Qed.

(** ** The primary key *)

Lemma other_titles_In (title : string) (rows : list Row.t) (row : Row.t) :
  In row (other_titles title rows) <-> In row rows /\ Row.title row <> title.
Proof.
  unfold other_titles. rewrite filter_In, negb_true_iff, String.eqb_neq. reflexivity.
Qed.

Lemma other_titles_none (title : string) (rows : list Row.t) :
  (forall row, In row rows -> Row.title row <> title) ->
  other_titles title rows = rows.
Proof.
  intros H. induction rows as [|row rows IH]; simpl; [reflexivity|].
  destruct (String.eqb (Row.title row) title) eqn:E; simpl.
  - apply String.eqb_eq in E. exfalso. apply (H row); [now left | exact E].
  - f_equal. apply IH. intros r Hr. apply H. now right.
Qed.

Lemma NoDup_ids_filter (f : Row.t -> bool) (rows : list Row.t) :
  NoDup (map Row.id rows) -> NoDup (map Row.id (filter f rows)).
Proof.
  induction rows as [|row rows IH]; simpl; intros H; [constructor|].
  inversion H as [|x l Hnotin Hnd]; subst.
  destruct (f row); simpl; [|now apply IH].
  constructor; [|now apply IH].
  intros Hin. apply Hnotin. apply in_map_iff in Hin as (r & Hid & Hr).
  apply in_map_iff. exists r. split; [exact Hid|]. now apply filter_In in Hr.
Qed.

Lemma init_consistent (rows : list Row.t) (seq : Z) :
  NoDup (map Row.id rows) ->
  (forall row, In row rows -> Row.id row < seq) ->
  consistent (init rows seq).
Proof. intros H1 H2. split; assumption. Qed.

(** Saving keeps the ids distinct: the new row takes the sequence's
    value, which no row has yet. *)
Lemma save_recipe_consistent (recipe : Recipe.t) (a a' : App V) :
  consistent (repository a) ->
  save_recipe update recipe a = (inr tt, a') ->
  consistent (repository a').
Proof.
  intros [Hnd Hlt] Hsave.
  destruct (save_recipe_returned recipe a a' Hsave) as (_ & _ & (stored & _ & ->) & _).
  split; simpl.
  - rewrite map_app. simpl. apply NoDup_app.
    + exact Hnd.
    + repeat constructor. intros [].
    + intros x Hx [<-|[]]. apply in_map_iff in Hx as (r & Hid & Hr).
      specialize (Hlt r Hr). lia.
  - intros row Hin. apply in_app_or in Hin as [Hin|[<-|[]]].
    + specialize (Hlt row Hin). lia.
    + simpl. lia.
Qed.

Lemma delete_recipe_consistent (recipe : Row.listed) (a : App V) :
  consistent (repository a) ->
  consistent (repository (snd (delete_recipe update recipe a))).
Proof.
  intros [Hnd Hlt]. rewrite delete_recipe_run.
  destruct (cursor_closed (repository a) || connection_closed (repository a));
    [split; assumption|].
  destruct (has_nul (Row.item0 recipe)); [split; assumption|].
  rewrite notify_loop_repository. split; simpl.
  - now apply NoDup_ids_filter.
  - intros row Hin. apply other_titles_In in Hin as [Hin _]. now apply Hlt.
Qed.

Lemma same_id_same_row (rows : list Row.t) (r1 r2 : Row.t) :
  NoDup (map Row.id rows) ->
  In r1 rows -> In r2 rows -> Row.id r1 = Row.id r2 -> r1 = r2.
Proof.
  induction rows as [|row rows IH]; simpl; intros Hnd H1 H2 Hid; [contradiction|].
  inversion Hnd as [|x l Hnotin Hnd']; subst.
  destruct H1 as [<-|H1], H2 as [<-|H2].
  - reflexivity.
  - exfalso. apply Hnotin. rewrite Hid. now apply in_map.
  - exfalso. apply Hnotin. rewrite <- Hid. now apply in_map.
  - now apply IH.
Qed.

Lemma set_recipes_same (r : RecipeRepository) :
  set_recipes (recipes r) (recipes_id_seq r) r = r.
Proof. now destruct r. Qed.

(** [close] closes both handles, touches nothing else and returns. *)
Lemma close_closes (a : App V) :
  fst (close a) = inr tt /\
  cursor_closed (repository (snd (close a))) = true /\
  connection_closed (repository (snd (close a))) = true /\
  recipes (repository (snd (close a))) = recipes (repository a) /\
  observers (repository (snd (close a))) = observers (repository a).
Proof. repeat split. Qed.

End Methods.

End StoreFacts.

Module StoreClaims.
Import Store StoreFacts Examples.

(** C5, as the code has it: on an open store, a recipe with at least one
    ingredient whose strings hold no NUL and whose title has at most 255
    characters is, once saved, listed by [get_all_recipes] among the
    earlier records as a record with the recipe's title and source URL,
    its ingredient strings concatenated with a comma and a space between
    them, and for instructions the recipe's own when it has the key and
    the placeholder when it has not; and the save returns when no observer
    raises. *)
Theorem save_then_list_round_trip {V : Type} (update : Observer -> Py V unit)
    (recipe : Recipe.t) (a : App V) :
  Recipe.extendedIngredients recipe <> [] ->
  is_open (repository a) ->
  storable recipe = true ->
  (char_length (Recipe.title recipe) <= 255)%nat ->
  (quiet update (observers (repository a)) -> fst (save_recipe update recipe a) = inr tt) /\
  exists listing,
    get_all_recipes (snd (save_recipe update recipe a))
    = (inr listing, snd (save_recipe update recipe a)) /\
    Permutation listing
      ((Recipe.title recipe,
        String.concat ", " (map Recipe.original (Recipe.extendedIngredients recipe)),
        match Recipe.instructions recipe with
        | Some text => text
        | None => Some "No instructions provided."
        end,
        Recipe.sourceUrl recipe)
         :: map Row.select (recipes (repository a))).
Proof.
  intros _ Hopen Hst Hlen. split.
  - intros Hq. now apply save_recipe_succeeds.
  - assert (Hrepo : repository (snd (save_recipe update recipe a))
                    = set_recipes
                        (recipes (repository a)
                           ++ [saved_row (recipes_id_seq (repository a)) recipe])
                        (recipes_id_seq (repository a) + 1) (repository a)).
    { rewrite (save_recipe_fitting update recipe a Hopen Hst Hlen).
      apply notify_loop_repository. }
    exists (map Row.select (recipes (repository (snd (save_recipe update recipe a))))). split.
    + rewrite get_all_recipes_run, Hrepo. simpl. now rewrite (is_open_usable _ Hopen).
    + rewrite Hrepo. simpl. rewrite map_app. simpl.
      rewrite <- join_concat.
      replace (match Recipe.instructions recipe with
               | Some text => text
               | None => Some "No instructions provided."
               end)
        with (dict_get (Recipe.instructions recipe) (Some "No instructions provided."))
        by (now destruct (Recipe.instructions recipe)).
      symmetry. apply Permutation_cons_append.
Qed.

Lemma save_then_list_round_trip_witness :
  (quiet counting_update (observers (repository fresh_app)) ->
   fst (save_recipe counting_update soup fresh_app) = inr tt) /\
  exists listing,
    get_all_recipes (snd (save_recipe counting_update soup fresh_app))
    = (inr listing, snd (save_recipe counting_update soup fresh_app)) /\
    Permutation listing
      ((Recipe.title soup,
        String.concat ", " (map Recipe.original (Recipe.extendedIngredients soup)),
        match Recipe.instructions soup with
        | Some text => text
        | None => Some "No instructions provided."
        end,
        Recipe.sourceUrl soup)
         :: map Row.select (recipes (repository fresh_app))).
Proof.
  apply (save_then_list_round_trip counting_update soup fresh_app).
  - discriminate.
  - split; reflexivity.
  - reflexivity.
  - apply Nat.leb_le. reflexivity.
Defined.

(** C5 refuted: a title of 255 letters and one space is saved without an
    error, and the record listed for it bears the 255 letters, not the
    title of the recipe. *)
Lemma title_with_trailing_space_is_cut :
  fst (save_recipe counting_update MoreExamples.padded_title fresh_app) = inr tt /\
  fst (get_all_recipes (snd (save_recipe counting_update MoreExamples.padded_title fresh_app)))
  = inr [(MoreExamples.letters 255, "salt", Some "No instructions provided.",
          "https://example.org/salt")] /\
  MoreExamples.letters 255 <> Recipe.title MoreExamples.padded_title.
Proof.
  split; [vm_compute; reflexivity|]. split; [vm_compute; reflexivity|].
  intros H.
  apply (f_equal (fun t => Nat.eqb (String.length t) 255)) in H.
  vm_compute in H. discriminate H.
Qed.




(** C1, as the code has it: the rows are matched on their title, not on
    their id.  On an open store with distinct ids whose observers do not
    raise, deleting a row that is in the table (handing [delete_recipe]
    the tuple listed for it; its title, as every title the database
    holds, has no NUL) returns normally and leaves no row with that title,
    hence no row with that id, and the listing that follows does not
    contain the row's tuple; deleting with a title without NUL that no row
    bears returns normally and leaves the repository as it was; and a
    title that holds NUL is refused by the driver with [ValueError],
    everything staying as it was. *)
Theorem delete_removes_rows_by_title {V : Type} (update : Observer -> Py V unit)
    (a : App V) :
  is_open (repository a) ->
  consistent (repository a) ->
  quiet update (observers (repository a)) ->
  (forall row,
      In row (recipes (repository a)) ->
      has_nul (Row.title row) = false ->
      fst (delete_recipe update (Row.select row) a) = inr tt /\
      (forall row',
          In row' (recipes (repository (snd (delete_recipe update (Row.select row) a)))) ->
          Row.title row' <> Row.title row /\ Row.id row' <> Row.id row) /\
      exists listing,
        get_all_recipes (snd (delete_recipe update (Row.select row) a))
        = (inr listing, snd (delete_recipe update (Row.select row) a)) /\
        ~ In (Row.select row) listing) /\
  (forall recipe,
      has_nul (Row.item0 recipe) = false ->
      (forall row, In row (recipes (repository a)) -> Row.title row <> Row.item0 recipe) ->
      fst (delete_recipe update recipe a) = inr tt /\
      repository (snd (delete_recipe update recipe a)) = repository a) /\
  (forall recipe,
      has_nul (Row.item0 recipe) = true ->
      delete_recipe update recipe a = (inl nul_error, a)).
Proof.
  intros Hopen [Hnd _] Hq. split; [|split].
  - intros row Hin Hnul.
    destruct (delete_recipe_quiet update (Row.select row) a Hopen Hq Hnul) as (Hok & Hrepo & _).
    split; [exact Hok|].
    assert (Hleft : forall row',
               In row' (recipes (repository (snd (delete_recipe update (Row.select row) a)))) ->
               In row' (recipes (repository a)) /\ Row.title row' <> Row.title row).
    { intros row' Hin'. rewrite Hrepo in Hin'. simpl in Hin'.
      now apply other_titles_In in Hin'. }
    split.
    + intros row' Hin'. destruct (Hleft row' Hin') as [Hold Htitle].
      split; [exact Htitle|]. intros Hid. apply Htitle.
      now rewrite (same_id_same_row _ row' row Hnd Hold Hin Hid).
    + exists (map Row.select (recipes (repository (snd (delete_recipe update (Row.select row) a))))).
      split.
      * rewrite get_all_recipes_run. rewrite Hrepo at 1 2. simpl.
        now rewrite (is_open_usable _ Hopen).
      * intros Hlisted. apply in_map_iff in Hlisted as (row' & Hsel & Hin').
        destruct (Hleft row' Hin') as [_ Htitle]. apply Htitle.
        unfold Row.select in Hsel. congruence.
  - intros recipe Hnul Hnone.
    destruct (delete_recipe_quiet update recipe a Hopen Hq Hnul) as (Hok & Hrepo & _).
    split; [exact Hok|].
    rewrite Hrepo, (other_titles_none _ _ Hnone). apply set_recipes_same.
  - intros recipe Hnul. now apply delete_recipe_refused.
Qed.

Lemma delete_removes_rows_by_title_witness :
  let a := mkApp (init [soup_row 1; soup_row 2] 3) 0%nat [] in
  (forall row,
      In row (recipes (repository a)) ->
      has_nul (Row.title row) = false ->
      fst (delete_recipe counting_update (Row.select row) a) = inr tt /\
      (forall row',
          In row' (recipes (repository (snd (delete_recipe counting_update (Row.select row) a)))) ->
          Row.title row' <> Row.title row /\ Row.id row' <> Row.id row) /\
      exists listing,
        get_all_recipes (snd (delete_recipe counting_update (Row.select row) a))
        = (inr listing, snd (delete_recipe counting_update (Row.select row) a)) /\
        ~ In (Row.select row) listing) /\
  (forall recipe,
      has_nul (Row.item0 recipe) = false ->
      (forall row, In row (recipes (repository a)) -> Row.title row <> Row.item0 recipe) ->
      fst (delete_recipe counting_update recipe a) = inr tt /\
      repository (snd (delete_recipe counting_update recipe a)) = repository a) /\
  (forall recipe,
      has_nul (Row.item0 recipe) = true ->
      delete_recipe counting_update recipe a = (inl nul_error, a)).
Proof.
  apply (delete_removes_rows_by_title counting_update
           (mkApp (init [soup_row 1; soup_row 2] 3) 0%nat [])).
  - split; reflexivity.
  - split; simpl.
    + repeat constructor; simpl; intuition discriminate.
    + intros row [<-|[<-|[]]]; simpl; lia.
  - intros o v _. reflexivity.
Defined.

(** C1 refuted: the soup is saved (row 1), listed, deleted and saved
    again (row 2).  The tuple that was listed for row 1 now stands for an
    id that matches no row, yet deleting with it is not a no-op: it
    empties the table, row 2 going with it. *)
Lemma delete_with_stale_row_removes_another_row :
  let a1 := snd (save_recipe counting_update soup fresh_app) in
  let listed := Row.select (soup_row 1) in
  recipes (repository a1) = [soup_row 1] /\
  fst (get_all_recipes a1) = inr [listed] /\
  let a2 := snd (delete_recipe counting_update listed a1) in
  let a3 := snd (save_recipe counting_update soup a2) in
  recipes (repository a3) = [soup_row 2] /\
  (forall row, In row (recipes (repository a3)) -> Row.id row <> 1) /\
  fst (delete_recipe counting_update listed a3) = inr tt /\
  recipes (repository (snd (delete_recipe counting_update listed a3))) = [] /\
  repository (snd (delete_recipe counting_update listed a3)) <> repository a3.
Proof.
  vm_compute. repeat split; try reflexivity.
  - intros row [<-|[]]. discriminate.
  - discriminate.
Qed.

(** C8, as the code has it: [close] returns normally, also when called
    again, and after it [save_recipe], [delete_recipe] and
    [get_all_recipes] each raise the driver's [InterfaceError], as it
    is, and change nothing; the repository has no error of its own for
    a closed store. *)
Theorem operations_after_close_raise_InterfaceError {V : Type}
    (update : Observer -> Py V unit) (a : App V) (recipe : Recipe.t) (listed : Row.listed) :
  fst (close a) = inr tt /\
  fst (close (snd (close a))) = inr tt /\
  save_recipe update recipe (snd (close a)) = (inl closed_cursor_error, snd (close a)) /\
  delete_recipe update listed (snd (close a)) = (inl closed_cursor_error, snd (close a)) /\
  get_all_recipes (snd (close a)) = (inl closed_cursor_error, snd (close a)) /\
  exc_class closed_cursor_error = "InterfaceError".
Proof.
  rewrite save_recipe_run, delete_recipe_run, get_all_recipes_run.
  repeat split.
Qed.

(** C8 refuted: on a store that has been closed a save raises an
    exception of class [InterfaceError], not [ClosedStoreError]. *)
Lemma save_after_close_raises_no_ClosedStoreError :
  fst (close fresh_app) = inr tt /\
  fst (save_recipe counting_update soup (snd (close fresh_app)))
  = inl (Exn "InterfaceError" "cursor already closed" None) /\
  ~ (exists e,
       fst (save_recipe counting_update soup (snd (close fresh_app))) = inl e /\
       exc_class e = "ClosedStoreError").
Proof.
  repeat split.
  intros (e & He & Hcls). vm_compute in He. injection He as <-. discriminate Hcls.
Qed.



End StoreClaims.

(* ===================================================================== *)
(** * Facts about the fetch *)
(* ===================================================================== *)

Module FetchFacts.
Import Retry RetryFacts Fetch.

Section Fetching.
Context {Tk : Type}.
Variable network : string -> nat -> exn + Response.
Variable render : json -> string -> Py Tk unit.
Variable tags : string.

(** An attempt that meets a failed response raises before it has
    assigned [current_recipes] or touched the widget. *)
Lemma fetch_once_failed_response (s : Session Tk) (response : Response) :
  network (api_url tags) (requests_sent s) = inr response ->
  failed_response response ->
  exists e, fetch_once network render tags s = (inl e, requests_later 1 s).
Proof.
  intros Hnet Hfailed.
  unfold fetch_once, bind, requests_get, requests_later. rewrite Hnet.
  replace (requests_sent s + 1)%nat with (S (requests_sent s)) by lia.
  unfold raise_for_status, response_json, raise, ret.
  destruct Hfailed as [r Hstatus | r Hbody | r members Hbody Hmissing].
  - replace ((400 <=? status_code r) && (status_code r <? 600)) with true
      by (symmetry; apply andb_true_iff; split; [apply Z.leb_le | apply Z.ltb_lt]; lia).
    eexists. reflexivity.
  - destruct ((400 <=? status_code r) && (status_code r <? 600)); [eexists; reflexivity|].
    rewrite Hbody. eexists. reflexivity.
  - destruct ((400 <=? status_code r) && (status_code r <? 600)); [eexists; reflexivity|].
    rewrite Hbody. unfold getitem. rewrite Hmissing. eexists. reflexivity.
Qed.

(** An exception of [requests.get] itself does the same. *)
Lemma fetch_once_no_response (s : Session Tk) (e : exn) :
  network (api_url tags) (requests_sent s) = inl e ->
  fetch_once network render tags s = (inl e, requests_later 1 s).
Proof.
  intros Hnet. unfold fetch_once, bind, requests_get, requests_later. rewrite Hnet.
  now replace (requests_sent s + 1)%nat with (S (requests_sent s)) by lia.
Qed.

(** When the response is good and it is the rendering that raises, the
    new batch has already replaced the old one. *)
Lemma fetch_once_failed_rendering (s : Session Tk) (status : Z)
    (members : list (string * json)) (batch : json) (e : exn) (tk' : Tk) :
  network (api_url tags) (requests_sent s)
  = inr (mkResponse status (Some (JObject members))) ->
  (400 <=? status) && (status <? 600) = false ->
  lookup "recipes" members = Some batch ->
  render batch (sort_order s) (output_text s) = (inl e, tk') ->
  fetch_once network render tags s
  = (inl e, mkSession batch (sort_order s) tk' (S (requests_sent s))).
Proof.
  intros Hnet Hstatus Hbatch Hrender.
  unfold fetch_once, bind, requests_get. rewrite Hnet.
  unfold raise_for_status. simpl. rewrite Hstatus. simpl.
  rewrite Hbatch. simpl. unfold display_recipes. simpl. now rewrite Hrender.
Qed.

(** [k] attempts in a row that meet failed responses. *)
Lemma failed_attempts (k : nat) :
  forall s : Session Tk,
    (forall i, (i < k)%nat ->
               exists response,
                 network (api_url tags) (requests_sent s + i)%nat = inr response /\
                 failed_response response) ->
    fails_first (fetch_once network render tags) k s /\
    world_after (fetch_once network render tags) k s = requests_later k s.
Proof.
  induction k as [|k IH]; intros s Hall.
  - split; [intros i Hi; lia|].
    simpl. unfold requests_later. rewrite Nat.add_0_r. now destruct s.
  - destruct (Hall 0%nat ltac:(lia)) as (response & Hnet & Hfailed).
    rewrite Nat.add_0_r in Hnet.
    destruct (fetch_once_failed_response s response Hnet Hfailed) as [e He].
    destruct (IH (requests_later 1 s)) as [Hfails Hworld].
    { intros i Hi. destruct (Hall (S i) ltac:(lia)) as (r & Hr & Hf).
      exists r. split; [|exact Hf]. simpl.
      now replace (requests_sent s + 1 + i)%nat with (requests_sent s + S i)%nat by lia. }
    split.
    + intros i Hi. destruct i as [|i].
      * exists e. unfold outcome. simpl. now rewrite He.
      * rewrite outcome_shift, He. simpl. apply Hfails. lia.
    + simpl. rewrite He. simpl. rewrite Hworld. unfold requests_later. simpl.
      f_equal. lia.
Qed.

End Fetching.

End FetchFacts.

Module FetchClaims.
Import Retry RetryFacts Fetch FetchFacts Examples.

(** C7, as the code has it: when each of the three attempts of a fetch
    meets an error status, a body that is not JSON or a document without
    the [recipes] member, the fetch fails and the batch held before it,
    the sort order and the widget are as they were. *)
Theorem failed_fetch_keeps_previous_batch {Tk : Type}
    (network : string -> nat -> exn + Response) (render : json -> string -> Py Tk unit)
    (tags : string) (s : Session Tk) (tr : list effect) :
  (forall i, (i < 3)%nat ->
             exists response,
               network (api_url tags) (requests_sent s + i)%nat = inr response /\
               failed_response response) ->
  (exists e, fst (fetch_and_display_recipes network render tags (mkProc s tr)) = inl e) /\
  current_recipes (world (snd (fetch_and_display_recipes network render tags (mkProc s tr))))
  = current_recipes s /\
  output_text (world (snd (fetch_and_display_recipes network render tags (mkProc s tr))))
  = output_text s /\
  sort_order (world (snd (fetch_and_display_recipes network render tags (mkProc s tr))))
  = sort_order s.
Proof.
  intros Hall.
  destruct (failed_attempts network render tags 3 s Hall) as [Hfails Hworld].
  unfold fetch_and_display_recipes, retry, retry_logic.
  change (Z.to_nat 3) with 3%nat.
  destruct (retry_loop_failures 2 (fetch_once network render tags) two_seconds 3 s tr None Hfails)
    as (Hw & _ & _ & Hr).
  destruct (Hfails 2%nat ltac:(lia)) as [e He].
  split; [exists e; now apply Hr|].
  rewrite Hw, Hworld. repeat split.
Qed.

Lemma failed_fetch_keeps_previous_batch_witness :
  (exists e,
      fst (fetch_and_display_recipes no_recipes show_batch "vegetarian" (mkProc session []))
      = inl e) /\
  current_recipes
    (world (snd (fetch_and_display_recipes no_recipes show_batch "vegetarian" (mkProc session []))))
  = current_recipes session /\
  output_text
    (world (snd (fetch_and_display_recipes no_recipes show_batch "vegetarian" (mkProc session []))))
  = output_text session /\
  sort_order
    (world (snd (fetch_and_display_recipes no_recipes show_batch "vegetarian" (mkProc session []))))
  = sort_order session.
Proof.
  apply (failed_fetch_keeps_previous_batch no_recipes show_batch "vegetarian" session []).
  intros i _. eexists. split.
  - reflexivity.
  - eapply missing_recipes_field; reflexivity.
Defined.

(** C7 refuted: the first answer delivers a batch on which the rendering
    raises, the next two answers have status 500.  The fetch fails with
    the [HTTPError] of the last attempt, and [current_recipes] is the batch
    of the first answer, not the batch held before the fetch. *)
Lemma failed_fetch_has_replaced_the_batch :
  fst (fetch_and_display_recipes MoreExamples.spoiled_server MoreExamples.broken_rendering ""
         (mkProc session []))
  = inl (Exn "HTTPError" "500" None) /\
  current_recipes
    (world (snd (fetch_and_display_recipes MoreExamples.spoiled_server
                   MoreExamples.broken_rendering "" (mkProc session []))))
  = MoreExamples.fresh_batch /\
  MoreExamples.fresh_batch <> current_recipes session.
Proof.
  split; [reflexivity|]. split; [reflexivity|]. discriminate.
Qed.

(** Three answers with status 500: three requests, three sleeps of two
    seconds, the [HTTPError] raised, the batch kept. *)
Example fetch_against_failing_server :
  fetch_and_display_recipes server_error show_batch "" (mkProc session [])
  = (inl (Exn "HTTPError" "500" None),
     mkProc (mkSession earlier_batch "ASC" [earlier_batch] 3)
       [Call; Print "An error occurred: 500. Retrying in 2 seconds."; Sleep 2;
        Call; Print "An error occurred: 500. Retrying in 2 seconds."; Sleep 2;
        Call; Print "An error occurred: 500. Retrying in 2 seconds."; Sleep 2]).
Proof. reflexivity. Qed.

End FetchClaims.

(* ===================================================================== *)
(** * More about the retry decorator *)
(* ===================================================================== *)

Module RetryMore.
Import Retry RetryFacts RetryTrace Examples.

Section Any.
Context {W A : Type}.
Variable delay : Z.
Variable func : Py W A.

(** A failure followed by a sleep that is refused: the handler raises
    and the loop is left. *)
Lemma retry_loop_step_refused (k : nat) (last : option exn) (w w' : W) (tr : list effect)
    (e : exn) :
  delay < 0 \/ sleep_limit < delay ->
  func w = (inl e, w') ->
  retry_loop delay func (S k) last (mkProc w tr)
  = (inl (with_context e (sleep_refusal delay)),
     mkProc w' (tr ++ [Call; Print (retry_message e delay)])).
Proof.
  intros Href Hf. simpl. unfold bind at 1. unfold attempt, try_except, bind, invoke. simpl.
  rewrite Hf. unfold print, time_sleep, sleep_refusal.
  destruct ((delay <? - sleep_limit) || (sleep_limit <? delay)) eqn:Ho.
  - unfold emit, modify, raise. simpl. now rewrite <- !app_assoc.
  - apply orb_false_iff in Ho as [_ Hle]. apply Z.ltb_ge in Hle.
    replace (delay <? 0) with true by (symmetry; apply Z.ltb_lt; lia).
    unfold emit, modify, raise. simpl. now rewrite <- !app_assoc.
Qed.

(** Whatever the function and the delay, a loop of [k] passes makes some
    number [j <= k] of invocations, one after the other on the world, and
    a value it returns is the value of the last of them, the earlier ones
    having failed. *)
Lemma retry_loop_shape (k : nat) :
  forall (w : W) (tr : list effect) (last : option exn),
  exists j : nat,
    (j <= k)%nat /\ ((1 <= k)%nat -> (1 <= j)%nat) /\
    world (snd (retry_loop delay func k last (mkProc w tr))) = world_after func j w /\
    calls (trace (snd (retry_loop delay func k last (mkProc w tr)))) = (calls tr + j)%nat /\
    (forall a,
        fst (retry_loop delay func k last (mkProc w tr)) = inr a ->
        (1 <= j)%nat /\ fails_first func (j - 1) w /\ outcome func (j - 1) w = inr a).
Proof.
  induction k as [|k IH]; intros w tr last.
  - exists 0%nat. simpl.
    split; [lia|]. split; [lia|]. split; [now destruct last|]. split.
    { destruct last; simpl; lia. }
    intros a Ha. destruct last; discriminate Ha.
  - destruct (func w) as [[e|a0] w'] eqn:Hf.
    + assert (Hcases : (delay < 0 \/ sleep_limit < delay) \/ 0 <= delay <= sleep_limit) by lia.
      destruct Hcases as [Href|Hacc].
      * (* the sleep refuses the delay: the handler raises *)
        exists 1%nat.
        rewrite (retry_loop_step_refused k last w w' tr e Href Hf). simpl. rewrite Hf.
        split; [lia|]. split; [lia|]. split; [reflexivity|]. split.
        { rewrite calls_app. unfold calls at 2. simpl. lia. }
        intros a Ha. discriminate Ha.
      * rewrite (retry_loop_step_failure delay func Hacc k last w w' tr e Hf).
        destruct (IH w' (tr ++ [Call; Print (retry_message e delay); Sleep delay]) (Some e))
          as (j & Hjk & _ & Hw & Hc & Hret).
        exists (S j).
        split; [lia|]. split; [lia|]. split.
        { rewrite Hw. simpl. now rewrite Hf. }
        split.
        { rewrite Hc, calls_app. unfold calls at 2. simpl. lia. }
        intros a Ha. destruct (Hret a Ha) as (Hj & Hfails & Hout).
        replace (S j - 1)%nat with (S (j - 1)) by lia.
        split; [lia|]. split.
        { intros i Hi. destruct i as [|i].
          - exists e. unfold outcome. simpl. now rewrite Hf.
          - rewrite (outcome_shift func), Hf. simpl. apply Hfails. lia. }
        rewrite (outcome_shift func), Hf. exact Hout.
    + rewrite (retry_loop_step_success delay func k last w w' tr a0 Hf).
      exists 1%nat. simpl. rewrite Hf.
      split; [lia|]. split; [lia|]. split; [reflexivity|]. split.
      { rewrite calls_app. unfold calls at 2. simpl. lia. }
      intros a Ha. split; [lia|]. split.
      { intros i Hi. lia. }
      unfold outcome. simpl. rewrite Hf. exact Ha.
Qed.


End Any.

(** X1: with no attempt to make ([attempts <= 0]) the wrapper never calls
    the function: it raises the [TypeError] of [raise None] and leaves the
    world and the trace as they were. *)
Theorem retry_without_attempts_never_calls {W A : Type} (n delay : Z) (func : Py W A)
    (w : W) (tr : list effect) :
  n <= 0 ->
  retry n delay func (mkProc w tr)
  = (inl (Exn "TypeError" "exceptions must derive from BaseException" None), mkProc w tr).
Proof.
  intros Hn. unfold retry, retry_logic.
  replace (Z.to_nat n) with 0%nat by lia. reflexivity.
Qed.

Lemma retry_without_attempts_never_calls_witness :
  retry 0 2 failing_op (mkProc 0%nat [])
  = (inl (Exn "TypeError" "exceptions must derive from BaseException" None), mkProc 0%nat []).
Proof.
  apply (retry_without_attempts_never_calls 0 2 failing_op 0%nat []). lia.
Defined.

(** X2: with a delay that [time.sleep] refuses, a first failure is the
    last: the function is called once, the line is printed, the sleep
    raises inside the handler (its context is the function's exception)
    and no further attempt is made, however many were allowed.  The sleep
    raises [ValueError] on a negative length down to [- sleep_limit] and
    [OverflowError] beyond [sleep_limit] in either direction. *)
Theorem retry_refused_delay_gives_up_after_one_failure {W A : Type} (n delay : Z)
    (func : Py W A) (w w' : W) (tr : list effect) (e : exn) :
  1 <= n ->
  delay < 0 \/ sleep_limit < delay ->
  func w = (inl e, w') ->
  retry n delay func (mkProc w tr)
  = (inl (with_context e (sleep_refusal delay)),
     mkProc w' (tr ++ [Call; Print (retry_message e delay)])) /\
  (- sleep_limit <= delay < 0 ->
   sleep_refusal delay = Exn "ValueError" "sleep length must be non-negative" None) /\
  (delay < - sleep_limit \/ sleep_limit < delay ->
   sleep_refusal delay
   = Exn "OverflowError" "timestamp too large to convert to C _PyTime_t" None).
Proof.
  intros Hn Href Hf. split; [|split].
  - unfold retry, retry_logic.
    destruct (Z.to_nat n) as [|k] eqn:Hk; [lia|].
    now apply retry_loop_step_refused.
  - intros Hin. unfold sleep_refusal.
    now replace ((delay <? - sleep_limit) || (sleep_limit <? delay)) with false
      by (symmetry; apply orb_false_iff; split; apply Z.ltb_ge; unfold sleep_limit in *; lia).
  - intros Hout. unfold sleep_refusal.
    now replace ((delay <? - sleep_limit) || (sleep_limit <? delay)) with true
      by (symmetry; apply orb_true_iff;
          destruct Hout; [left | right]; apply Z.ltb_lt; assumption).
Qed.

Lemma retry_refused_delay_gives_up_after_one_failure_witness :
  retry 3 (-1) failing_op (mkProc 0%nat [])
  = (inl (with_context (Exn "HTTPError" "1" None) (sleep_refusal (-1))),
     mkProc 1%nat ([] ++ [Call; Print (retry_message (Exn "HTTPError" "1" None) (-1))])) /\
  (- sleep_limit <= -1 < 0 ->
   sleep_refusal (-1) = Exn "ValueError" "sleep length must be non-negative" None) /\
  (-1 < - sleep_limit \/ sleep_limit < -1 ->
   sleep_refusal (-1)
   = Exn "OverflowError" "timestamp too large to convert to C _PyTime_t" None).
Proof.
  apply (retry_refused_delay_gives_up_after_one_failure 3 (-1) failing_op 0%nat 1%nat []).
  - lia.
  - left. lia.
  - reflexivity.
Defined.

(** X3: whatever the function does and whatever the delay, the wrapper
    calls it at most [attempts] times, at least once when [attempts >= 1],
    each call on the world the call before left, and does nothing else to
    the world. *)
Theorem retry_never_exceeds_attempts {W A : Type} (n delay : Z) (func : Py W A)
    (w : W) (tr : list effect) :
  exists j : nat,
    (j <= Z.to_nat n)%nat /\
    (1 <= n -> (1 <= j)%nat) /\
    calls (trace (snd (retry n delay func (mkProc w tr)))) = (calls tr + j)%nat /\
    world (snd (retry n delay func (mkProc w tr))) = world_after func j w.
Proof.
  unfold retry, retry_logic.
  destruct (retry_loop_shape delay func (Z.to_nat n) w tr None) as (j & Hj & H1 & Hw & Hc & _).
  exists j. repeat split; try assumption. intros Hn. apply H1. lia.
Qed.

(** X4: the wrapper invents no result: when it returns [a], some call
    number [j <= attempts] of the function returned [a] and every call
    before it failed. *)
Theorem retry_returns_only_what_the_function_returned {W A : Type} (n delay : Z)
    (func : Py W A) (w : W) (tr : list effect) (a : A) :
  fst (retry n delay func (mkProc w tr)) = inr a ->
  exists j : nat,
    (1 <= j)%nat /\ Z.of_nat j <= n /\
    fails_first func (j - 1) w /\
    outcome func (j - 1) w = inr a.
Proof.
  unfold retry, retry_logic. intros Hret.
  destruct (retry_loop_shape delay func (Z.to_nat n) w tr None) as (j & Hj & _ & _ & _ & H).
  destruct (H a Hret) as (H1 & Hfails & Hout).
  exists j. repeat split; try assumption. lia.
Qed.

Lemma retry_returns_only_what_the_function_returned_witness :
  exists j : nat,
    (1 <= j)%nat /\ Z.of_nat j <= 3 /\
    fails_first flaky_op (j - 1) 0%nat /\
    outcome flaky_op (j - 1) 0%nat = inr 3%nat.
Proof.
  apply (retry_returns_only_what_the_function_returned 3 2 flaky_op 0%nat [] 3%nat).
  reflexivity.
Defined.



End RetryMore.

(* ===================================================================== *)
(** * More about the repository *)
(* ===================================================================== *)

Module StoreMore.
Import Store StoreFacts Usage Examples.

Section Methods.
Context {V : Type}.
Variable update : Observer -> Py V unit.

(** The loop stops at the first observer that raises: the observers
    before it have been called, the ones after it have not. *)
Lemma notify_loop_stops (before rest : list Observer) (o : Observer) (e : exn) :
  quiet update before ->
  (forall v, fst (update o v) = inl e) ->
  forall a : App V,
    fst (notify_loop update (before ++ o :: rest) a) = inl e /\
    events (snd (notify_loop update (before ++ o :: rest) a))
    = events a ++ map Update (before ++ [o]).
Proof.
  intros Hq Hraise. induction before as [|b before IH]; intros a; simpl.
  - unfold bind, call_update. pose proof (Hraise (view a)) as Ho.
    destruct (update o (view a)) as [[e'|[]] v']; simpl in *; [|discriminate].
    split; [exact Ho | reflexivity].
  - unfold bind, call_update.
    pose proof (Hq b (view a) (or_introl eq_refl)) as Hb.
    destruct (update b (view a)) as [[e'|[]] v']; simpl in *; [discriminate|].
    destruct (IH (fun o' v Hin => Hq o' v (or_intror Hin))
                 (mkApp (repository a) v' (events a ++ [Update b]))) as [Hr Hev].
    split; [exact Hr|]. rewrite Hev. simpl. now rewrite <- app_assoc.
Qed.

(** Whether it returns or raises, a save leaves the ids distinct. *)
Lemma save_recipe_keeps_consistent (recipe : Recipe.t) (a : App V) :
  consistent (repository a) -> consistent (repository (snd (save_recipe update recipe a))).
Proof.
  intros [Hnd Hlt]. rewrite save_recipe_run.
  destruct (cursor_closed (repository a) || connection_closed (repository a));
    [split; assumption|].
  destruct (storable recipe); [|split; assumption].
  destruct (varchar 255 (Recipe.title recipe)) as [stored|]; [|split; assumption].
  rewrite notify_loop_repository. split; simpl.
  - rewrite map_app. simpl. apply NoDup_app.
    + exact Hnd.
    + repeat constructor. intros [].
    + intros x Hx [<-|[]]. apply in_map_iff in Hx as (r & Hid & Hr).
      specialize (Hlt r Hr). lia.
  - intros row Hin. apply in_app_or in Hin as [Hin|[<-|[]]].
    + specialize (Hlt row Hin). lia.
    + simpl. lia.
Qed.

Lemma after_consistent (a : App V) (c : command) :
  consistent (repository a) -> consistent (repository (after update a c)).
Proof.
  intros Hc. destruct c as [recipe|recipe| |o|o|]; simpl.
  - now apply save_recipe_keeps_consistent.
  - now apply delete_recipe_consistent.
  - rewrite get_all_recipes_run.
    now destruct (cursor_closed (repository a) || connection_closed (repository a)).
  - exact Hc.
  - unfold remove_observer. now destruct (list_remove o (observers (repository a))).
  - exact Hc.
Qed.

Lemma other_titles_added (title : string) (rows : list Row.t) (row : Row.t) :
  Row.title row = title ->
  other_titles title (rows ++ [row]) = other_titles title rows.
Proof.
  intros Ht. unfold other_titles. rewrite filter_app. simpl.
  rewrite Ht, String.eqb_refl. simpl. apply app_nil_r.
Qed.

Lemma list_remove_absent (o : Observer) (obs : list Observer) :
  registrations o obs = 0%nat -> list_remove o obs = None.
Proof.
  unfold registrations. induction obs as [|y obs IH]; simpl; [reflexivity|].
  rewrite (Nat.eqb_sym y o). destruct (Nat.eqb o y); simpl; [discriminate|].
  intros H. now rewrite (IH H).
Qed.

Lemma list_remove_appended (o : Observer) (obs : list Observer) :
  exists obs', list_remove o (obs ++ [o]) = Some obs' /\
               (forall o', registrations o' obs' = registrations o' obs) /\
               (registrations o obs = 0%nat -> obs' = obs).
Proof.
  induction obs as [|y obs IH]; simpl.
  - rewrite Nat.eqb_refl. exists []. repeat split.
  - destruct (Nat.eqb y o) eqn:Hy.
    + apply Nat.eqb_eq in Hy. subst y. exists (obs ++ [o]). repeat split.
      * intros o'. unfold registrations. rewrite filter_app, length_app.
        cbn [filter]. unfold Observer in *.
        destruct (Nat.eqb o' o); cbn [Datatypes.length]; lia.
      * unfold registrations. simpl. rewrite Nat.eqb_refl. simpl. discriminate.
    + destruct IH as (obs' & -> & Hreg & Hsame). exists (y :: obs'). repeat split.
      * intros o'. specialize (Hreg o'). unfold registrations, Observer in *. simpl.
        destruct (Nat.eqb o' y); simpl; lia.
      * intros H0. f_equal. apply Hsame. unfold registrations in *. simpl in H0.
        rewrite (Nat.eqb_sym o y), Hy in H0. exact H0.
Qed.

End Methods.

(** X6: on an open store, for a recipe whose strings hold no NUL and
    whose title has more than 255 characters: when something other than
    spaces exceeds the 255 characters, [save_recipe] raises the driver's
    error and nothing else happens, no row, no dialog, no notification;
    when only spaces exceed them, the row is inserted with the first 255
    characters for its title. *)
Theorem save_refuses_or_cuts_title_longer_than_column {V : Type}
    (update : Observer -> Py V unit) (recipe : Recipe.t) (a : App V) :
  is_open (repository a) ->
  storable recipe = true ->
  (255 < char_length (Recipe.title recipe))%nat ->
  (all_spaces (drop_chars 255 (Recipe.title recipe)) = false ->
   save_recipe update recipe a = (inl value_too_long, a)) /\
  (all_spaces (drop_chars 255 (Recipe.title recipe)) = true ->
   recipes (repository (snd (save_recipe update recipe a)))
   = recipes (repository a)
       ++ [stored_row (recipes_id_seq (repository a)) recipe
             (take_chars 255 (Recipe.title recipe))]).
Proof.
  intros Hopen Hst Hlen.
  assert (Hv : varchar 255 (Recipe.title recipe)
               = if all_spaces (drop_chars 255 (Recipe.title recipe))
                 then Some (take_chars 255 (Recipe.title recipe)) else None).
  { unfold varchar.
    now replace (char_length (Recipe.title recipe) <=? 255)%nat with false
      by (symmetry; apply Nat.leb_gt; exact Hlen). }
  rewrite save_recipe_run, (is_open_usable _ Hopen), Hst, Hv. split; intros Hsp; rewrite Hsp.
  - reflexivity.
  - rewrite notify_loop_repository. reflexivity.
Qed.

Lemma save_refuses_or_cuts_title_longer_than_column_witness :
  (all_spaces (drop_chars 255 (Recipe.title MoreExamples.endless_title)) = false ->
   save_recipe counting_update MoreExamples.endless_title fresh_app
   = (inl value_too_long, fresh_app)) /\
  (all_spaces (drop_chars 255 (Recipe.title MoreExamples.endless_title)) = true ->
   recipes (repository (snd (save_recipe counting_update MoreExamples.endless_title fresh_app)))
   = recipes (repository fresh_app)
       ++ [stored_row (recipes_id_seq (repository fresh_app)) MoreExamples.endless_title
             (take_chars 255 (Recipe.title MoreExamples.endless_title))]).
Proof.
  apply (save_refuses_or_cuts_title_longer_than_column counting_update
           MoreExamples.endless_title fresh_app).
  - split; reflexivity.
  - reflexivity.
  - apply Nat.ltb_lt. reflexivity.
Defined.

(** X7: the row is inserted before anybody is told.  On an open store,
    for a recipe whose strings hold no NUL and whose title has at most 255
    characters: when an observer raises during the notification of the
    save, [save_recipe] raises that
    exception, yet the row is in the table and the success dialog has been
    shown; the observers registered before the one that raised have been
    called, those after it have not. *)
Theorem save_keeps_row_when_observer_raises {V : Type} (update : Observer -> Py V unit)
    (recipe : Recipe.t) (a : App V) (before rest : list Observer) (o : Observer) (e : exn) :
  is_open (repository a) ->
  storable recipe = true ->
  (char_length (Recipe.title recipe) <= 255)%nat ->
  observers (repository a) = before ++ o :: rest ->
  quiet update before ->
  (forall v, fst (update o v) = inl e) ->
  fst (save_recipe update recipe a) = inl e /\
  recipes (repository (snd (save_recipe update recipe a)))
  = recipes (repository a) ++ [saved_row (recipes_id_seq (repository a)) recipe] /\
  events (snd (save_recipe update recipe a))
  = events a ++ ShowInfo "Save Successful" "The recipe was saved successfully."
             :: map Update (before ++ [o]).
Proof.
  intros Hopen Hst Hlen Hobs Hq Hraise.
  rewrite (save_recipe_fitting update recipe a Hopen Hst Hlen).
  rewrite Hobs.
  match goal with
  | |- context [notify_loop update _ ?st] =>
      destruct (notify_loop_stops update before rest o e Hq Hraise st) as [Hr Hev];
      pose proof (notify_loop_repository update (before ++ o :: rest) st) as Hrepo
  end.
  split; [exact Hr|]. split.
  - rewrite Hrepo. reflexivity.
  - rewrite Hev. simpl. now rewrite <- app_assoc.
Qed.

Lemma save_keeps_row_when_observer_raises_witness :
  let a := snd (register_observer 8%nat
                  (snd (register_observer 13%nat (snd (register_observer 7%nat fresh_app))))) in
  fst (save_recipe MoreExamples.grumpy_update soup a)
  = inl (Exn "RuntimeError" "the view is gone" None) /\
  recipes (repository (snd (save_recipe MoreExamples.grumpy_update soup a)))
  = recipes (repository a) ++ [saved_row (recipes_id_seq (repository a)) soup] /\
  events (snd (save_recipe MoreExamples.grumpy_update soup a))
  = events a ++ ShowInfo "Save Successful" "The recipe was saved successfully."
             :: map Update ([7%nat] ++ [13%nat]).
Proof.
  apply (save_keeps_row_when_observer_raises MoreExamples.grumpy_update soup
           (snd (register_observer 8%nat
                   (snd (register_observer 13%nat (snd (register_observer 7%nat fresh_app))))))
           [7%nat] [8%nat] 13%nat).
  - split; reflexivity.
  - reflexivity.
  - apply Nat.leb_le. reflexivity.
  - reflexivity.
  - intros o v [<-|[]]. reflexivity.
  - intros v. reflexivity.
Defined.

(** X8: on an open store whose observers do not raise and whose table,
    as every table of the database, holds no title with NUL,
    [delete_recipe] removes every row that bears the title, however many
    there are, and no other: the rows left are exactly the earlier rows
    with another title, and the id sequence and the observers are
    untouched.  This covers the title the driver refuses: no row bears
    it and none is removed. *)
Theorem delete_removes_exactly_the_rows_with_the_title {V : Type}
    (update : Observer -> Py V unit) (recipe : Row.listed) (a : App V) :
  is_open (repository a) ->
  quiet update (observers (repository a)) ->
  (forall row, In row (recipes (repository a)) -> has_nul (Row.title row) = false) ->
  (forall row,
      In row (recipes (repository (snd (delete_recipe update recipe a))))
      <-> In row (recipes (repository a)) /\ Row.title row <> Row.item0 recipe) /\
  recipes_id_seq (repository (snd (delete_recipe update recipe a)))
  = recipes_id_seq (repository a) /\
  observers (repository (snd (delete_recipe update recipe a))) = observers (repository a).
Proof.
  intros Hopen Hq Hclean.
  destruct (has_nul (Row.item0 recipe)) eqn:Hnul.
  - rewrite (delete_recipe_refused update recipe a Hopen Hnul). simpl.
    split; [|split; reflexivity].
    intros row. split; [|tauto].
    intros Hin. split; [exact Hin|].
    intros Heq. rewrite <- Heq, (Hclean row Hin) in Hnul. discriminate.
  - destruct (delete_recipe_quiet update recipe a Hopen Hq Hnul) as (_ & Hrepo & _).
    rewrite Hrepo. simpl. split; [|split; reflexivity].
    intros row. apply other_titles_In.
Qed.

Lemma delete_removes_exactly_the_rows_with_the_title_witness :
  let a := mkApp (init [soup_row 1; saved_row 2 MoreExamples.stew; soup_row 3] 4) 0%nat [] in
  (forall row,
      In row (recipes (repository (snd (delete_recipe counting_update
                                          (Row.select (soup_row 1)) a))))
      <-> In row (recipes (repository a)) /\ Row.title row <> Row.item0 (Row.select (soup_row 1))) /\
  recipes_id_seq (repository (snd (delete_recipe counting_update (Row.select (soup_row 1)) a)))
  = recipes_id_seq (repository a) /\
  observers (repository (snd (delete_recipe counting_update (Row.select (soup_row 1)) a)))
  = observers (repository a).
Proof.
  apply (delete_removes_exactly_the_rows_with_the_title counting_update
           (Row.select (soup_row 1))
           (mkApp (init [soup_row 1; saved_row 2 MoreExamples.stew; soup_row 3] 4) 0%nat [])).
  - split; reflexivity.
  - intros o v [].
  - intros row [<-|[<-|[<-|[]]]]; reflexivity.
Defined.



(** X10: on an open store whose observers do not raise, saving a recipe
    whose strings hold no NUL and whose title has at most 255 characters,
    and then deleting with the tuple listed for it, takes the new row away
    together with every older row of the same title; when no older row
    bore the title the table is as it was before the save, the id sequence
    being one further. *)
Theorem save_then_delete_restores_the_table {V : Type} (update : Observer -> Py V unit)
    (recipe : Recipe.t) (a : App V) :
  is_open (repository a) ->
  quiet update (observers (repository a)) ->
  storable recipe = true ->
  (char_length (Recipe.title recipe) <= 255)%nat ->
  let saved := snd (save_recipe update recipe a) in
  let listed := Row.select (saved_row (recipes_id_seq (repository a)) recipe) in
  (exists listing, fst (get_all_recipes saved) = inr listing /\ In listed listing) /\
  fst (delete_recipe update listed saved) = inr tt /\
  recipes (repository (snd (delete_recipe update listed saved)))
  = other_titles (Recipe.title recipe) (recipes (repository a)) /\
  recipes_id_seq (repository (snd (delete_recipe update listed saved)))
  = recipes_id_seq (repository a) + 1 /\
  ((forall row, In row (recipes (repository a)) -> Row.title row <> Recipe.title recipe) ->
   recipes (repository (snd (delete_recipe update listed saved))) = recipes (repository a)).
Proof.
  intros Hopen Hq Hst Hlen saved listed.
  assert (Hrepo : repository saved
                  = set_recipes
                      (recipes (repository a)
                         ++ [saved_row (recipes_id_seq (repository a)) recipe])
                      (recipes_id_seq (repository a) + 1) (repository a)).
  { unfold saved. rewrite (save_recipe_fitting update recipe a Hopen Hst Hlen).
    apply notify_loop_repository. }
  assert (Hopen' : is_open (repository saved)) by (rewrite Hrepo; exact Hopen).
  assert (Hq' : quiet update (observers (repository saved))) by (rewrite Hrepo; exact Hq).
  assert (Hnul : has_nul (Row.item0 listed) = false) by (now apply storable_title).
  destruct (delete_recipe_quiet update listed saved Hopen' Hq' Hnul) as (Hdel & Hrepo2 & _).
  assert (Hrows : recipes (repository (snd (delete_recipe update listed saved)))
                  = other_titles (Recipe.title recipe) (recipes (repository a))).
  { rewrite Hrepo2, Hrepo. simpl. now apply other_titles_added. }
  split.
  - exists (map Row.select (recipes (repository saved))). split.
    + now rewrite get_all_recipes_run, (is_open_usable _ Hopen').
    + rewrite Hrepo. simpl. rewrite map_app. apply in_or_app. right. now left.
  - split; [exact Hdel|]. split; [exact Hrows|]. split.
    + rewrite Hrepo2, Hrepo. reflexivity.
    + intros Hnone. rewrite Hrows. now apply other_titles_none.
Qed.

Lemma save_then_delete_restores_the_table_witness :
  let a := mkApp (init [saved_row 1 MoreExamples.stew] 2) 0%nat [] in
  let saved := snd (save_recipe counting_update soup a) in
  let listed := Row.select (saved_row (recipes_id_seq (repository a)) soup) in
  (exists listing, fst (get_all_recipes saved) = inr listing /\ In listed listing) /\
  fst (delete_recipe counting_update listed saved) = inr tt /\
  recipes (repository (snd (delete_recipe counting_update listed saved)))
  = other_titles (Recipe.title soup) (recipes (repository a)) /\
  recipes_id_seq (repository (snd (delete_recipe counting_update listed saved)))
  = recipes_id_seq (repository a) + 1 /\
  ((forall row, In row (recipes (repository a)) -> Row.title row <> Recipe.title soup) ->
   recipes (repository (snd (delete_recipe counting_update listed saved)))
   = recipes (repository a)).
Proof.
  apply (save_then_delete_restores_the_table counting_update soup
           (mkApp (init [saved_row 1 MoreExamples.stew] 2) 0%nat [])).
  - split; reflexivity.
  - intros o v [].
  - reflexivity.
  - apply Nat.leb_le. reflexivity.
Defined.

(** X11: the primary key.  Through any sequence of calls on the
    repository (saves, deletes, listings, registrations, removals, close),
    whether they return or raise, the ids of the rows stay pairwise
    distinct and below the sequence that feeds them. *)
Theorem ids_stay_distinct_through_any_session {V : Type} (update : Observer -> Py V unit)
    (a : App V) (cs : list command) :
  consistent (repository a) ->
  consistent (repository (replay update a cs)).
Proof.
  unfold replay. revert a. induction cs as [|c cs IH]; intros a Hc; simpl; [exact Hc|].
  apply IH. now apply after_consistent.
Qed.

Lemma ids_stay_distinct_through_any_session_witness :
  consistent
    (repository
       (replay MoreExamples.grumpy_update fresh_app
          [Save soup; Register 13%nat; Save soup; Save MoreExamples.stew;
           Delete (Row.select (soup_row 1)); Save MoreExamples.endless_title; Save soup;
           Close; Save soup])).
Proof.
  apply (ids_stay_distinct_through_any_session MoreExamples.grumpy_update fresh_app).
  split; simpl.
  - constructor.
  - intros row [].
Defined.

(** X12: removing an observer that is not registered raises
    [ValueError] and changes nothing. *)
Theorem removing_an_unregistered_observer_raises {V : Type} (o : Observer) (a : App V) :
  registrations o (observers (repository a)) = 0%nat ->
  remove_observer o a = (inl (Exn "ValueError" "list.remove(x): x not in list" None), a).
Proof.
  intros H. unfold remove_observer. now rewrite (list_remove_absent o _ H).
Qed.

Lemma removing_an_unregistered_observer_raises_witness :
  remove_observer 8%nat (snd (register_observer 7%nat fresh_app))
  = (inl (Exn "ValueError" "list.remove(x): x not in list" None),
     snd (register_observer 7%nat fresh_app)).
Proof.
  apply (removing_an_unregistered_observer_raises 8%nat (snd (register_observer 7%nat fresh_app))).
  reflexivity.
Defined.

(** X13: registering an observer and removing it again always succeeds
    and leaves every observer registered as many times as before; when the
    observer was not registered before, the repository is exactly as it
    was. *)
Theorem register_then_remove_restores_registrations {V : Type} (o : Observer) (a : App V) :
  fst (remove_observer o (snd (register_observer o a))) = inr tt /\
  (forall o',
      registrations o' (observers (repository (snd (remove_observer o (snd (register_observer o a))))))
      = registrations o' (observers (repository a))) /\
  (registrations o (observers (repository a)) = 0%nat ->
   snd (remove_observer o (snd (register_observer o a))) = a).
Proof.
  destruct (list_remove_appended o (observers (repository a))) as (obs' & Hrem & Hreg & Hsame).
  unfold remove_observer, register_observer, with_repository, modify. simpl.
  rewrite Hrem. simpl. repeat split.
  - exact Hreg.
  - intros H0. rewrite (Hsame H0). destruct a as [[rows seq cc cu obs] v evs]. reflexivity.
Qed.



End StoreMore.

(* ===================================================================== *)
(** * More about the fetch *)
(* ===================================================================== *)

Module FetchMore.
Import Retry RetryFacts RetryMore Fetch FetchFacts FetchCases Examples.

Section Fetching.
Context {Tk : Type}.
Variable network : string -> nat -> exn + Response.
Variable render : json -> string -> Py Tk unit.
Variable tags : string.

(** An attempt on a rejected answer raises and only counts the request. *)
Lemma fetch_once_rejected (s : Session Tk) :
  rejected (network (api_url tags) (requests_sent s)) = true ->
  exists e, fetch_once network render tags s = (inl e, requests_later 1 s).
Proof.
  intros Hrej. unfold fetch_once, bind, requests_get, requests_later.
  replace (requests_sent s + 1)%nat with (S (requests_sent s)) by lia.
  destruct (network (api_url tags) (requests_sent s)) as [e|r]; [eexists; reflexivity|].
  unfold rejected in Hrej. unfold raise_for_status, response_json, raise, ret.
  destruct ((400 <=? status_code r) && (status_code r <? 600)); [eexists; reflexivity|].
  simpl in Hrej.
  destruct (json_body r) as [[| | | | |members]|]; try (eexists; reflexivity).
  unfold getitem. destruct (lookup "recipes" members); [discriminate|].
  eexists. reflexivity.
Qed.

(** An attempt on a delivered batch assigns it and goes on to render. *)
Lemma fetch_once_delivered (s : Session Tk) (batch : json) :
  delivered (network (api_url tags) (requests_sent s)) = Some batch ->
  fetch_once network render tags s
  = display_recipes render
      (mkSession batch (sort_order s) (output_text s) (S (requests_sent s))).
Proof.
  unfold delivered, rejected, fetch_once, bind, requests_get.
  destruct (network (api_url tags) (requests_sent s)) as [e|r]; [discriminate|].
  unfold raise_for_status, response_json, raise, ret.
  destruct ((400 <=? status_code r) && (status_code r <? 600)); [discriminate|].
  simpl. destruct (json_body r) as [[| | | | |members]|]; try discriminate.
  unfold getitem. destruct (lookup "recipes" members) as [v|]; [|discriminate].
  intros H. injection H as <-. reflexivity.
Qed.

(** Every attempt sends one request and leaves the sort order alone. *)
Lemma fetch_once_counts (s : Session Tk) :
  requests_sent (snd (fetch_once network render tags s)) = S (requests_sent s) /\
  sort_order (snd (fetch_once network render tags s)) = sort_order s.
Proof.
  unfold fetch_once, bind, requests_get.
  destruct (network (api_url tags) (requests_sent s)) as [e|r]; [split; reflexivity|].
  unfold raise_for_status, response_json, raise, ret.
  destruct ((400 <=? status_code r) && (status_code r <? 600)); [split; reflexivity|].
  destruct (json_body r) as [data|]; [|split; reflexivity].
  unfold getitem.
  destruct data as [| | | | |members]; try (split; reflexivity).
  destruct (lookup "recipes" members) as [v|]; [|split; reflexivity].
  simpl. unfold display_recipes. simpl.
  destruct (render v (sort_order s) (output_text s)); split; reflexivity.
Qed.

Lemma world_after_counts (k : nat) :
  forall s : Session Tk,
    requests_sent (world_after (fetch_once network render tags) k s) = (requests_sent s + k)%nat /\
    sort_order (world_after (fetch_once network render tags) k s) = sort_order s.
Proof.
  induction k as [|k IH]; intros s; simpl.
  - split; [lia | reflexivity].
  - destruct (IH (snd (fetch_once network render tags s))) as [Hn Hs].
    destruct (fetch_once_counts s) as [Hn1 Hs1].
    rewrite Hn, Hs, Hn1, Hs1. split; [lia | reflexivity].
Qed.

Lemma rejected_attempts (k : nat) :
  forall s : Session Tk,
    (forall i, (i < k)%nat ->
               rejected (network (api_url tags) (requests_sent s + i)%nat) = true) ->
    fails_first (fetch_once network render tags) k s /\
    world_after (fetch_once network render tags) k s = requests_later k s.
Proof.
  induction k as [|k IH]; intros s Hall.
  - split; [intros i Hi; lia|].
    simpl. unfold requests_later. rewrite Nat.add_0_r. now destruct s.
  - pose proof (Hall 0%nat ltac:(lia)) as Hrej. rewrite Nat.add_0_r in Hrej.
    destruct (fetch_once_rejected s Hrej) as [e He].
    destruct (IH (requests_later 1 s)) as [Hfails Hworld].
    { intros i Hi. simpl.
      replace (requests_sent s + 1 + i)%nat with (requests_sent s + S i)%nat by lia.
      apply Hall. lia. }
    split.
    + intros i Hi. destruct i as [|i].
      * exists e. unfold outcome. simpl. now rewrite He.
      * rewrite outcome_shift, He. simpl. apply Hfails. lia.
    + simpl. rewrite He. simpl. rewrite Hworld. unfold requests_later. simpl.
      f_equal. lia.
Qed.

(** Attempts that are each handed [batch] and fail in the rendering. *)
Lemma broken_rendering_attempts (batch : json) (k : nat) :
  (forall so tk, exists e, fst (render batch so tk) = inl e) ->
  forall s : Session Tk,
    (forall i, (i < k)%nat ->
               delivered (network (api_url tags) (requests_sent s + i)%nat) = Some batch) ->
    fails_first (fetch_once network render tags) k s /\
    ((1 <= k)%nat -> current_recipes (world_after (fetch_once network render tags) k s) = batch).
Proof.
  intros Hbroken. induction k as [|k IH]; intros s Hall.
  - split; [intros i Hi; lia | lia].
  - pose proof (Hall 0%nat ltac:(lia)) as Hd. rewrite Nat.add_0_r in Hd.
    pose proof (fetch_once_delivered s batch Hd) as Hrun.
    destruct (Hbroken (sort_order s) (output_text s)) as [e He].
    unfold display_recipes in Hrun. simpl in Hrun.
    destruct (render batch (sort_order s) (output_text s)) as [r tk'] eqn:Hr.
    simpl in He. subst r.
    destruct (IH (mkSession batch (sort_order s) tk' (S (requests_sent s)))) as [Hfails Hbatch].
    { intros i Hi. simpl.
      replace (S (requests_sent s + i)) with (requests_sent s + S i)%nat by lia.
      apply Hall. lia. }
    split.
    + intros i Hi. destruct i as [|i].
      * exists e. unfold outcome. simpl. now rewrite Hrun.
      * rewrite outcome_shift, Hrun. simpl. apply Hfails. lia.
    + intros _. simpl. rewrite Hrun. simpl. destruct k as [|k]; [reflexivity|].
      apply Hbatch. lia.
Qed.

End Fetching.

(** X15: a fetch whose three attempts each meet an answer that is
    rejected before the assignment (an exception of [requests.get], an
    error status, a body that is not JSON, a document that is not an
    object or lacks [recipes]) raises after three requests and leaves the
    batch, the sort order and the widget as they were. *)
Theorem fetch_keeps_batch_when_every_answer_is_rejected {Tk : Type}
    (network : string -> nat -> exn + Response) (render : json -> string -> Py Tk unit)
    (tags : string) (s : Session Tk) (tr : list effect) :
  (forall i, (i < 3)%nat ->
             rejected (network (api_url tags) (requests_sent s + i)%nat) = true) ->
  (exists e, fst (fetch_and_display_recipes network render tags (mkProc s tr)) = inl e) /\
  world (snd (fetch_and_display_recipes network render tags (mkProc s tr)))
  = mkSession (current_recipes s) (sort_order s) (output_text s) (requests_sent s + 3).
Proof.
  intros Hall.
  destruct (rejected_attempts network render tags 3 s Hall) as [Hfails Hworld].
  unfold fetch_and_display_recipes, retry, retry_logic.
  change (Z.to_nat 3) with 3%nat.
  destruct (retry_loop_failures 2 (fetch_once network render tags) two_seconds 3 s tr None Hfails)
    as (Hw & _ & _ & Hr).
  destruct (Hfails 2%nat ltac:(lia)) as [e He].
  split; [exists e; now apply Hr|].
  rewrite Hw, Hworld. reflexivity.
Qed.

Lemma fetch_keeps_batch_when_every_answer_is_rejected_witness :
  (exists e,
      fst (fetch_and_display_recipes MoreExamples.unreachable show_batch "meat"
             (mkProc session [])) = inl e) /\
  world (snd (fetch_and_display_recipes MoreExamples.unreachable show_batch "meat"
                (mkProc session [])))
  = mkSession (current_recipes session) (sort_order session) (output_text session)
      (requests_sent session + 3).
Proof.
  apply (fetch_keeps_batch_when_every_answer_is_rejected MoreExamples.unreachable show_batch
           "meat" session []).
  intros i _. reflexivity.
Defined.

(** X16: when the first answer delivers a batch and the rendering of it
    returns, the fetch returns after that one request, without a line
    printed or a sleep: the batch has replaced the earlier one and the
    widget is what the rendering made of it. *)
Theorem fetch_replaces_batch_on_first_good_answer {Tk : Type}
    (network : string -> nat -> exn + Response) (render : json -> string -> Py Tk unit)
    (tags : string) (s : Session Tk) (tr : list effect) (batch : json) (tk' : Tk) :
  delivered (network (api_url tags) (requests_sent s)) = Some batch ->
  render batch (sort_order s) (output_text s) = (inr tt, tk') ->
  fetch_and_display_recipes network render tags (mkProc s tr)
  = (inr tt, mkProc (mkSession batch (sort_order s) tk' (S (requests_sent s))) (tr ++ [Call])).
Proof.
  intros Hd Hrender.
  unfold fetch_and_display_recipes, retry, retry_logic. change (Z.to_nat 3) with 3%nat.
  apply retry_loop_step_success.
  rewrite (fetch_once_delivered network render tags s batch Hd).
  unfold display_recipes. simpl. now rewrite Hrender.
Qed.

Lemma fetch_replaces_batch_on_first_good_answer_witness :
  fetch_and_display_recipes MoreExamples.good_server show_batch "breakfast" (mkProc session [])
  = (inr tt,
     mkProc (mkSession MoreExamples.fresh_batch (sort_order session)
               [MoreExamples.fresh_batch] (S (requests_sent session)))
       ([] ++ [Call])).
Proof.
  apply (fetch_replaces_batch_on_first_good_answer MoreExamples.good_server show_batch
           "breakfast" session [] MoreExamples.fresh_batch [MoreExamples.fresh_batch]).
  - reflexivity.
  - reflexivity.
Defined.

(** X17: a failure in the rendering comes too late to spare the batch.
    When each of the three answers delivers [batch] and the rendering of
    [batch] raises, the fetch raises after three requests and
    [current_recipes] holds [batch], not the batch held before. *)
Theorem fetch_that_fails_in_rendering_has_replaced_the_batch {Tk : Type}
    (network : string -> nat -> exn + Response) (render : json -> string -> Py Tk unit)
    (tags : string) (s : Session Tk) (tr : list effect) (batch : json) :
  (forall i, (i < 3)%nat ->
             delivered (network (api_url tags) (requests_sent s + i)%nat) = Some batch) ->
  (forall so tk, exists e, fst (render batch so tk) = inl e) ->
  (exists e, fst (fetch_and_display_recipes network render tags (mkProc s tr)) = inl e) /\
  current_recipes (world (snd (fetch_and_display_recipes network render tags (mkProc s tr))))
  = batch /\
  requests_sent (world (snd (fetch_and_display_recipes network render tags (mkProc s tr))))
  = (requests_sent s + 3)%nat.
Proof.
  intros Hall Hbroken.
  destruct (broken_rendering_attempts network render tags batch 3 Hbroken s Hall)
    as [Hfails Hbatch].
  unfold fetch_and_display_recipes, retry, retry_logic. change (Z.to_nat 3) with 3%nat.
  destruct (retry_loop_failures 2 (fetch_once network render tags) two_seconds 3 s tr None Hfails)
    as (Hw & _ & _ & Hr).
  destruct (Hfails 2%nat ltac:(lia)) as [e He].
  split; [exists e; now apply Hr|].
  rewrite Hw. split.
  - apply Hbatch. lia.
  - apply world_after_counts.
Qed.

Lemma fetch_that_fails_in_rendering_has_replaced_the_batch_witness :
  (exists e,
      fst (fetch_and_display_recipes MoreExamples.good_server MoreExamples.broken_rendering ""
             (mkProc session [])) = inl e) /\
  current_recipes
    (world (snd (fetch_and_display_recipes MoreExamples.good_server
                   MoreExamples.broken_rendering "" (mkProc session []))))
  = MoreExamples.fresh_batch /\
  requests_sent
    (world (snd (fetch_and_display_recipes MoreExamples.good_server
                   MoreExamples.broken_rendering "" (mkProc session []))))
  = (requests_sent session + 3)%nat.
Proof.
  apply (fetch_that_fails_in_rendering_has_replaced_the_batch MoreExamples.good_server
           MoreExamples.broken_rendering "" session [] MoreExamples.fresh_batch).
  - intros i _. reflexivity.
  - intros so tk. eexists. reflexivity.
Defined.

(** X18: whatever the remote side answers and whatever the rendering
    does, one fetch sends at least one and at most three requests, one per
    call of the decorated function, and never changes the sort order. *)
Theorem fetch_sends_one_to_three_requests {Tk : Type}
    (network : string -> nat -> exn + Response) (render : json -> string -> Py Tk unit)
    (tags : string) (s : Session Tk) (tr : list effect) :
  exists j : nat,
    (1 <= j <= 3)%nat /\
    requests_sent (world (snd (fetch_and_display_recipes network render tags (mkProc s tr))))
    = (requests_sent s + j)%nat /\
    calls (trace (snd (fetch_and_display_recipes network render tags (mkProc s tr))))
    = (calls tr + j)%nat /\
    sort_order (world (snd (fetch_and_display_recipes network render tags (mkProc s tr))))
    = sort_order s.
Proof.
  unfold fetch_and_display_recipes, retry, retry_logic. change (Z.to_nat 3) with 3%nat.
  destruct (retry_loop_shape 2 (fetch_once network render tags) 3 s tr None)
    as (j & Hj & H1 & Hw & Hc & _).
  exists j. split; [split; [apply H1; lia | exact Hj]|].
  rewrite Hw. destruct (world_after_counts network render tags j s) as [Hn Hs].
  repeat split; assumption.
Qed.

(** X19: a fetch recovers from a rejected first answer.  When the
    second answer delivers a batch whose rendering returns, the fetch
    returns after two requests and one sleep of two seconds, with the new
    batch in place. *)
Theorem fetch_recovers_on_the_second_attempt {Tk : Type}
    (network : string -> nat -> exn + Response) (render : json -> string -> Py Tk unit)
    (tags : string) (s : Session Tk) (tr : list effect) (batch : json) (tk' : Tk) :
  rejected (network (api_url tags) (requests_sent s)) = true ->
  delivered (network (api_url tags) (S (requests_sent s))) = Some batch ->
  render batch (sort_order s) (output_text s) = (inr tt, tk') ->
  fst (fetch_and_display_recipes network render tags (mkProc s tr)) = inr tt /\
  world (snd (fetch_and_display_recipes network render tags (mkProc s tr)))
  = mkSession batch (sort_order s) tk' (requests_sent s + 2) /\
  calls (trace (snd (fetch_and_display_recipes network render tags (mkProc s tr))))
  = (calls tr + 2)%nat /\
  sleeps (trace (snd (fetch_and_display_recipes network render tags (mkProc s tr))))
  = sleeps tr ++ [2].
Proof.
  intros Hrej Hd Hrender.
  destruct (fetch_once_rejected network render tags s Hrej) as [e He].
  assert (Hsecond : fetch_once network render tags (requests_later 1 s)
                    = (inr tt, mkSession batch (sort_order s) tk' (requests_sent s + 2))).
  { rewrite (fetch_once_delivered network render tags (requests_later 1 s) batch).
    - unfold display_recipes. simpl. rewrite Hrender. do 2 f_equal. lia.
    - simpl. now replace (requests_sent s + 1)%nat with (S (requests_sent s)) by lia. }
  unfold fetch_and_display_recipes, retry, retry_logic. change (Z.to_nat 3) with 3%nat.
  destruct (retry_loop_success 2 (fetch_once network render tags) two_seconds 1 3 s tr None tt)
    as (Hr & Hw & Hc & Hs).
  - lia.
  - intros i Hi. assert (i = 0%nat) by lia. subst i. exists e.
    unfold outcome. simpl. now rewrite He.
  - unfold outcome. simpl. rewrite He. simpl. now rewrite Hsecond.
  - split; [exact Hr|]. split; [|split; [exact Hc | exact Hs]].
    rewrite Hw. simpl. rewrite He. simpl. now rewrite Hsecond.
Qed.

Lemma fetch_recovers_on_the_second_attempt_witness :
  fst (fetch_and_display_recipes MoreExamples.flaky_server show_batch "vegetarian"
         (mkProc session [])) = inr tt /\
  world (snd (fetch_and_display_recipes MoreExamples.flaky_server show_batch "vegetarian"
                (mkProc session [])))
  = mkSession MoreExamples.fresh_batch (sort_order session) [MoreExamples.fresh_batch]
      (requests_sent session + 2) /\
  calls (trace (snd (fetch_and_display_recipes MoreExamples.flaky_server show_batch "vegetarian"
                       (mkProc session []))))
  = (calls [] + 2)%nat /\
  sleeps (trace (snd (fetch_and_display_recipes MoreExamples.flaky_server show_batch "vegetarian"
                        (mkProc session []))))
  = sleeps [] ++ [2].
Proof.
  apply (fetch_recovers_on_the_second_attempt MoreExamples.flaky_server show_batch "vegetarian"
           session [] MoreExamples.fresh_batch [MoreExamples.fresh_batch]).
  - reflexivity.
  - reflexivity.
  - reflexivity.
Defined.

(** X20: [toggle_sort_order] turns "ASC" into "DESC" and anything else
    into "ASC" before it renders, so the order has changed even when the
    rendering raises; it keeps the batch and sends no request; and two
    toggles bring "ASC" or "DESC" back. *)
Theorem toggle_flips_the_sort_order {Tk : Type} (render : json -> string -> Py Tk unit)
    (s : Session Tk) :
  sort_order (snd (toggle_sort_order render s)) = flip (sort_order s) /\
  current_recipes (snd (toggle_sort_order render s)) = current_recipes s /\
  requests_sent (snd (toggle_sort_order render s)) = requests_sent s /\
  toggle_sort_order render s
  = display_recipes render
      (mkSession (current_recipes s) (flip (sort_order s)) (output_text s) (requests_sent s)) /\
  (sort_order s = "ASC" \/ sort_order s = "DESC" ->
   sort_order (snd (toggle_sort_order render (snd (toggle_sort_order render s))))
   = sort_order s).
Proof.
  assert (Hone : forall t : Session Tk,
             toggle_sort_order render t
             = display_recipes render
                 (mkSession (current_recipes t) (flip (sort_order t)) (output_text t)
                    (requests_sent t))) by reflexivity.
  assert (Hkeep : forall t : Session Tk,
             sort_order (snd (display_recipes render t)) = sort_order t /\
             current_recipes (snd (display_recipes render t)) = current_recipes t /\
             requests_sent (snd (display_recipes render t)) = requests_sent t).
  { intros t. unfold display_recipes.
    destruct (render (current_recipes t) (sort_order t) (output_text t)). repeat split. }
  rewrite Hone. destruct (Hkeep (mkSession (current_recipes s) (flip (sort_order s))
                                  (output_text s) (requests_sent s))) as (H1 & H2 & H3).
  split; [exact H1|]. split; [exact H2|]. split; [exact H3|]. split; [reflexivity|].
  intros Hso. rewrite Hone.
  match goal with
  | |- sort_order (snd (display_recipes render ?t)) = _ =>
      destruct (Hkeep t) as (H4 & _ & _); rewrite H4
  end.
  simpl. rewrite H1. destruct Hso as [-> | ->]; reflexivity.
Qed.

End FetchMore.

(* ===================================================================== *)
(** * Facts about the window *)
(* ===================================================================== *)

Module ViewFacts.
Import Store StoreFacts View.

(** ** The order of titles *)

Lemma ltb_lt (a b : string) : String.ltb a b = true <-> String_as_OT.lt a b.
Proof.
  rewrite <- String_as_OT.cmp_lt. unfold String.ltb, String_as_OT.cmp.
  destruct (String.compare a b); split; intros H; try reflexivity; discriminate.
Qed.

Lemma ltb_trans (a b c : string) :
  String.ltb a b = true -> String.ltb b c = true -> String.ltb a c = true.
Proof. rewrite !ltb_lt. apply String_as_OT.lt_trans. Qed.

Lemma ltb_irrefl (a : string) : String.ltb a a = false.
Proof.
  destruct (String.ltb a a) eqn:H; [|reflexivity].
  apply ltb_lt in H. exfalso. apply (String_as_OT.lt_not_eq _ _ H). reflexivity.
Qed.

Lemma ltb_asym (a b : string) : String.ltb a b = true -> String.ltb b a = false.
Proof.
  intros H. destruct (String.ltb b a) eqn:H'; [|reflexivity].
  pose proof (ltb_trans _ _ _ H H') as Haa. rewrite ltb_irrefl in Haa. discriminate.
Qed.

Lemma ltb_total (a b : string) :
  String.ltb a b = false -> String.ltb b a = false -> a = b.
Proof.
  unfold String.ltb. rewrite (String.compare_antisym b a).
  destruct (String.compare a b) eqn:H; simpl; try discriminate.
  intros _ _. now apply String.compare_eq_iff.
Qed.

(** [a <= b] and [b <= c] give [a <= c]. *)
Lemma not_ltb_trans (a b c : string) :
  String.ltb b a = false -> String.ltb c b = false -> String.ltb c a = false.
Proof.
  intros Hab Hbc. destruct (String.ltb c a) eqn:Hca; [|reflexivity].
  destruct (String.ltb a b) eqn:Hlt.
  - rewrite (ltb_trans _ _ _ Hca Hlt) in Hbc. discriminate.
  - rewrite (ltb_total a b Hlt Hab) in Hca. rewrite Hca in Hbc. discriminate.
Qed.

(** ** The sort *)

Lemma insert_by_title_perm (x : Recipe.t) (l : list Recipe.t) :
  Permutation (insert_by_title x l) (x :: l).
Proof.
  induction l as [|y l IH]; simpl; [reflexivity|].
  destruct (String.ltb (Recipe.title y) (Recipe.title x)); [|reflexivity].
  rewrite IH. apply perm_swap.
Qed.

Lemma sort_by_title_perm (l : list Recipe.t) : Permutation (sort_by_title l) l.
Proof.
  induction l as [|x l IH]; simpl; [reflexivity|].
  rewrite insert_by_title_perm. now constructor.
Qed.

Lemma insert_by_title_ascending (x : Recipe.t) (l : list Recipe.t) :
  ascending l -> ascending (insert_by_title x l).
Proof.
  unfold ascending. induction l as [|y l IH]; simpl; intros Hs.
  - repeat constructor.
  - inversion Hs as [|y' l' Hsl Hall]; subst.
    destruct (String.ltb (Recipe.title y) (Recipe.title x)) eqn:Hyx.
    + constructor; [now apply IH|].
      apply (Permutation_Forall (Permutation_sym (insert_by_title_perm x l))).
      constructor; [now apply ltb_asym | exact Hall].
    + constructor; [exact Hs|]. constructor; [exact Hyx|].
      rewrite Forall_forall in *. intros z Hz.
      exact (not_ltb_trans _ _ _ Hyx (Hall z Hz)).
Qed.

Lemma sort_by_title_ascending (l : list Recipe.t) : ascending (sort_by_title l).
Proof.
  induction l as [|x l IH]; simpl; [constructor|].
  now apply insert_by_title_ascending.
Qed.

Lemma StronglySorted_snoc {X} (R : X -> X -> Prop) (l : list X) (x : X) :
  StronglySorted R l -> Forall (fun y => R y x) l -> StronglySorted R (l ++ [x]).
Proof.
  induction l as [|y l IH]; simpl; intros Hs Hall.
  - repeat constructor.
  - inversion Hs; subst. inversion Hall; subst.
    constructor; [now apply IH|].
    apply Forall_app. split; [assumption | now constructor].
Qed.

Lemma ascending_rev (l : list Recipe.t) : ascending l -> descending (rev l).
Proof.
  unfold ascending, descending. induction l as [|x l IH]; simpl; intros Hs; [constructor|].
  inversion Hs as [|x' l' Hsl Hall]; subst.
  apply StronglySorted_snoc; [now apply IH|].
  apply Forall_rev. exact Hall.
Qed.

(** The sort is stable: it never moves a recipe past one of the same
    title. *)
Lemma insert_by_title_filter (t : string) (x : Recipe.t) (l : list Recipe.t) :
  filter (has_title t) (insert_by_title x l) = filter (has_title t) (x :: l).
Proof.
  induction l as [|y l IH]; [reflexivity|].
  simpl insert_by_title.
  destruct (String.ltb (Recipe.title y) (Recipe.title x)) eqn:Hyx; [|reflexivity].
  simpl. simpl in IH. rewrite IH.
  unfold has_title.
  destruct (String.eqb (Recipe.title x) t) eqn:Hx; [|reflexivity].
  destruct (String.eqb (Recipe.title y) t) eqn:Hy; [|reflexivity].
  apply String.eqb_eq in Hx, Hy. rewrite Hx, Hy, ltb_irrefl in Hyx. discriminate.
Qed.

Lemma sort_by_title_filter (t : string) (l : list Recipe.t) :
  filter (has_title t) (sort_by_title l) = filter (has_title t) l.
Proof.
  induction l as [|x l IH]; [reflexivity|].
  simpl sort_by_title. rewrite insert_by_title_filter. simpl. now rewrite IH.
Qed.

Lemma filter_rev {X} (f : X -> bool) (l : list X) : filter f (rev l) = rev (filter f l).
Proof.
  induction l as [|x l IH]; simpl; [reflexivity|].
  rewrite filter_app, IH. simpl. destruct (f x); simpl; [reflexivity | apply app_nil_r].
Qed.

Lemma sorted_filter (t : string) (l : list Recipe.t) (reverse : bool) :
  filter (has_title t) (sorted l reverse) = filter (has_title t) l.
Proof.
  unfold sorted. destruct reverse; [|apply sort_by_title_filter].
  now rewrite filter_rev, sort_by_title_filter, filter_rev, rev_involutive.
Qed.

(** ** Distinct titles *)

Lemma ascending_increasing (l : list Recipe.t) :
  ascending l -> NoDup (map Recipe.title l) -> increasing l.
Proof.
  unfold ascending, increasing. induction l as [|x l IH]; simpl; intros Hs Hnd; [constructor|].
  inversion Hs as [|x' l' Hsl Hall]; subst. inversion Hnd as [|t ts Hnotin Hnd']; subst.
  constructor; [now apply IH|].
  rewrite Forall_forall in *. intros y Hy.
  destruct (String.ltb (Recipe.title x) (Recipe.title y)) eqn:Hxy; [reflexivity|].
  exfalso. apply Hnotin. rewrite (ltb_total _ _ Hxy (Hall y Hy)). now apply in_map.
Qed.

(** Two increasing lists with the same recipes are the same list. *)
Lemma increasing_unique (l1 : list Recipe.t) :
  forall l2 : list Recipe.t,
    increasing l1 -> increasing l2 ->
    (forall x, In x l1 <-> In x l2) ->
    l1 = l2.
Proof.
  unfold increasing. induction l1 as [|h1 t1 IH]; intros l2 Hs1 Hs2 Hsame.
  - destruct l2 as [|h2 t2]; [reflexivity|].
    exfalso. apply (Hsame h2). now left.
  - destruct l2 as [|h2 t2]; [exfalso; apply (Hsame h1); now left|].
    inversion Hs1 as [|x1 r1 Hst1 Hall1]; subst.
    inversion Hs2 as [|x2 r2 Hst2 Hall2]; subst.
    rewrite Forall_forall in Hall1, Hall2.
    assert (Hh : h1 = h2).
    { destruct (proj1 (Hsame h1) (or_introl eq_refl)) as [Heq|Hin2]; [now symmetry|].
      destruct (proj2 (Hsame h2) (or_introl eq_refl)) as [Heq|Hin1]; [exact Heq|].
      pose proof (Hall2 h1 Hin2) as H21. pose proof (Hall1 h2 Hin1) as H12.
      rewrite (ltb_asym _ _ H21) in H12. discriminate. }
    subst h2. f_equal. apply IH; try assumption.
    intros x. split; intros Hin.
    + destruct (proj1 (Hsame x) (or_intror Hin)) as [Heq|Hin2]; [|exact Hin2].
      subst x. pose proof (Hall1 h1 Hin) as Hlt. rewrite ltb_irrefl in Hlt. discriminate.
    + destruct (proj2 (Hsame x) (or_intror Hin)) as [Heq|Hin1]; [|exact Hin1].
      subst x. pose proof (Hall2 h1 Hin) as Hlt. rewrite ltb_irrefl in Hlt. discriminate.
Qed.

Lemma sort_by_title_rev (l : list Recipe.t) :
  NoDup (map Recipe.title l) -> sort_by_title (rev l) = sort_by_title l.
Proof.
  intros Hnd.
  assert (Hp1 : Permutation (sort_by_title (rev l)) l)
    by (rewrite sort_by_title_perm; symmetry; apply Permutation_rev).
  pose proof (sort_by_title_perm l) as Hp2.
  apply increasing_unique.
  - apply ascending_increasing; [apply sort_by_title_ascending|].
    apply (Permutation_NoDup (l := map Recipe.title l)); [|exact Hnd].
    symmetry. now apply Permutation_map.
  - apply ascending_increasing; [apply sort_by_title_ascending|].
    apply (Permutation_NoDup (l := map Recipe.title l)); [|exact Hnd].
    symmetry. now apply Permutation_map.
  - intros x. split; intros Hin.
    + apply (Permutation_in x (Permutation_sym Hp2)). now apply (Permutation_in x Hp1).
    + apply (Permutation_in x (Permutation_sym Hp1)). now apply (Permutation_in x Hp2).
Qed.

(** ** What the widget holds *)

Lemma save_buttons_app (i1 i2 : list item) :
  save_buttons (i1 ++ i2) = save_buttons i1 ++ save_buttons i2.
Proof.
  induction i1 as [|it i1 IH]; simpl; [reflexivity|].
  destruct it; simpl; now rewrite IH.
Qed.

Lemma delete_buttons_app (i1 i2 : list item) :
  delete_buttons (i1 ++ i2) = delete_buttons i1 ++ delete_buttons i2.
Proof.
  induction i1 as [|it i1 IH]; simpl; [reflexivity|].
  destruct it; simpl; now rewrite IH.
Qed.

Lemma show_recipes_buttons (recipes : list Recipe.t) :
  forall (i : Z) (w : ScrolledText),
    state (show_recipes i recipes w) = state w /\
    save_buttons (contents (show_recipes i recipes w))
    = save_buttons (contents w) ++ recipes.
Proof.
  induction recipes as [|r recipes IH]; intros i w; simpl.
  - split; [reflexivity | now rewrite app_nil_r].
  - match goal with
    | |- context [show_recipes (i + 1) recipes ?w'] =>
        destruct (IH (i + 1) w') as [Hst Hb]; rewrite Hst, Hb
    end.
    split; [reflexivity|].
    simpl. rewrite !save_buttons_app. simpl. rewrite !app_nil_r.
    now rewrite <- app_assoc.
Qed.

Lemma show_rows_buttons (recipes : list Row.listed) :
  forall (i : Z) (w : ScrolledText),
    state (show_rows i recipes w) = state w /\
    delete_buttons (contents (show_rows i recipes w))
    = delete_buttons (contents w) ++ recipes.
Proof.
  induction recipes as [|r recipes IH]; intros i w; simpl.
  - split; [reflexivity | now rewrite app_nil_r].
  - match goal with
    | |- context [show_rows (i + 1) recipes ?w'] =>
        destruct (IH (i + 1) w') as [Hst Hb]; rewrite Hst, Hb
    end.
    split; [reflexivity|].
    simpl. rewrite !delete_buttons_app. simpl. rewrite !app_nil_r.
    now rewrite <- app_assoc.
Qed.

Lemma display_recipes_buttons (recipes : list Recipe.t) (sort_order : string)
    (w : ScrolledText) :
  save_buttons (contents (display_recipes recipes sort_order w))
  = sorted recipes (String.eqb sort_order "DESC").
Proof.
  unfold display_recipes. simpl.
  destruct (show_recipes_buttons (sorted recipes (String.eqb sort_order "DESC")) 1
              (delete_all (config NORMAL w))) as [_ Hb].
  rewrite Hb. reflexivity.
Qed.

End ViewFacts.

Module ViewMore.
Import Store StoreFacts View ViewFacts Examples.

(** X21: [display_recipes] leaves the widget disabled, holding one
    "Save Recipe" button for each recipe of the batch and nothing of what
    it held before; top to bottom the recipes stand by title, descending
    when [sort_order] is "DESC" and ascending for any other value. *)
Theorem display_shows_the_batch_sorted_by_title (recipes : list Recipe.t)
    (sort_order : string) (w : ScrolledText) :
  state (display_recipes recipes sort_order w) = DISABLED /\
  display_recipes recipes sort_order w = display_recipes recipes sort_order (mkText NORMAL []) /\
  Permutation (save_buttons (contents (display_recipes recipes sort_order w))) recipes /\
  (sort_order <> "DESC" ->
   ascending (save_buttons (contents (display_recipes recipes sort_order w)))) /\
  (sort_order = "DESC" ->
   descending (save_buttons (contents (display_recipes recipes sort_order w)))).
Proof.
  rewrite display_recipes_buttons. repeat split.
  - unfold sorted. destruct (String.eqb sort_order "DESC").
    + rewrite <- Permutation_rev, sort_by_title_perm. symmetry. apply Permutation_rev.
    + apply sort_by_title_perm.
  - intros Hso. apply String.eqb_neq in Hso. rewrite Hso. apply sort_by_title_ascending.
  - intros ->. simpl. apply ascending_rev, sort_by_title_ascending.
Qed.

(** X22: when the titles of the batch are pairwise distinct, what the
    window shows under "DESC" is, top to bottom, the exact reverse of what
    it shows under "ASC". *)
Theorem descending_display_reverses_the_ascending_one (recipes : list Recipe.t)
    (w w' : ScrolledText) :
  NoDup (map Recipe.title recipes) ->
  save_buttons (contents (display_recipes recipes "DESC" w))
  = rev (save_buttons (contents (display_recipes recipes "ASC" w'))).
Proof.
  intros Hnd. rewrite !display_recipes_buttons. simpl. unfold sorted.
  now rewrite (sort_by_title_rev recipes Hnd).
Qed.

Lemma descending_display_reverses_the_ascending_one_witness :
  save_buttons (contents (display_recipes [MoreExamples.stew; soup; MoreExamples.salad] "DESC"
                            (mkText DISABLED [])))
  = rev (save_buttons (contents (display_recipes [MoreExamples.stew; soup; MoreExamples.salad]
                                   "ASC" (mkText DISABLED [])))).
Proof.
  apply (descending_display_reverses_the_ascending_one
           [MoreExamples.stew; soup; MoreExamples.salad]).
  repeat constructor; simpl; intuition discriminate.
Defined.

(** X23: the display never swaps two recipes of the same title: under
    either sort order the recipes that bear a given title stand in the
    order in which the batch has them. *)
Theorem display_keeps_the_order_of_equal_titles (recipes : list Recipe.t)
    (sort_order : string) (w : ScrolledText) (t : string) :
  filter (has_title t) (save_buttons (contents (display_recipes recipes sort_order w)))
  = filter (has_title t) recipes.
Proof. rewrite display_recipes_buttons. apply sorted_filter. Qed.

Section Callbacks.
Context {V : Type}.
Variable update : Observer -> Py V unit.

Lemma display_all_recipes_run (d : Desk V) :
  display_all_recipes d =
  if cursor_closed (repository (app d)) || connection_closed (repository (app d))
  then (inl closed_cursor_error, mkDesk (app d) (mkText NORMAL []))
  else (inr tt,
        mkDesk (app d)
          (config DISABLED
             (show_rows 1 (map Row.select (recipes (repository (app d)))) (mkText NORMAL [])))).
Proof.
  unfold display_all_recipes, bind, on_widget, on_repository, modify. simpl.
  rewrite get_all_recipes_run.
  destruct (cursor_closed (repository (app d)) || connection_closed (repository (app d)));
    reflexivity.
Qed.

End Callbacks.

(** What the listing leaves on an open store. *)
Lemma listing_rows {V : Type} (d : Desk V) :
  is_open (repository (app d)) ->
  fst (display_all_recipes d) = inr tt /\
  app (snd (display_all_recipes d)) = app d /\
  delete_buttons (contents (output_text (snd (display_all_recipes d))))
  = map Row.select (recipes (repository (app d))).
Proof.
  intros Hopen. rewrite display_all_recipes_run, (is_open_usable _ Hopen). simpl.
  repeat split.
  destruct (show_rows_buttons (map Row.select (recipes (repository (app d)))) 1
              (mkText NORMAL [])) as [_ Hb].
  rewrite Hb. reflexivity.
Qed.

(** X24: on a store that has been closed [display_all_recipes] raises
    the driver's error after it has emptied the widget: the widget is
    left blank and enabled, and the repository as it was. *)
Theorem listing_a_closed_store_blanks_the_widget {V : Type} (d : Desk V) :
  cursor_closed (repository (app d)) || connection_closed (repository (app d)) = true ->
  display_all_recipes d = (inl closed_cursor_error, mkDesk (app d) (mkText NORMAL [])).
Proof. intros H. now rewrite display_all_recipes_run, H. Qed.

Lemma listing_a_closed_store_blanks_the_widget_witness :
  display_all_recipes
    (mkDesk (snd (close (snd (save_recipe counting_update soup fresh_app))))
       (mkText DISABLED [Text "Recipe 1"; DeleteButton (Row.select (soup_row 1))]))
  = (inl closed_cursor_error,
     mkDesk (snd (close (snd (save_recipe counting_update soup fresh_app)))) (mkText NORMAL [])).
Proof.
  apply (listing_a_closed_store_blanks_the_widget
           (mkDesk (snd (close (snd (save_recipe counting_update soup fresh_app))))
              (mkText DISABLED [Text "Recipe 1"; DeleteButton (Row.select (soup_row 1))]))).
  reflexivity.
Defined.

(** X25: on an open store [display_all_recipes] returns with the widget
    disabled and one "Delete" button per row of the table, in the order of
    the listing, each bound to the tuple of its own row; the repository is
    untouched and nothing the widget held before is left. *)
Theorem listing_shows_a_delete_button_per_row {V : Type} (d : Desk V) :
  is_open (repository (app d)) ->
  fst (display_all_recipes d) = inr tt /\
  app (snd (display_all_recipes d)) = app d /\
  state (output_text (snd (display_all_recipes d))) = DISABLED /\
  delete_buttons (contents (output_text (snd (display_all_recipes d))))
  = map Row.select (recipes (repository (app d))).
Proof.
  intros Hopen. rewrite display_all_recipes_run, (is_open_usable _ Hopen). simpl.
  repeat split.
  destruct (show_rows_buttons (map Row.select (recipes (repository (app d)))) 1
              (mkText NORMAL [])) as [_ Hb].
  rewrite Hb. reflexivity.
Qed.

Lemma listing_shows_a_delete_button_per_row_witness :
  let d := mkDesk (snd (save_recipe counting_update MoreExamples.stew
                          (snd (save_recipe counting_update soup fresh_app))))
             (mkText NORMAL [Text "stale"]) in
  fst (display_all_recipes d) = inr tt /\
  app (snd (display_all_recipes d)) = app d /\
  state (output_text (snd (display_all_recipes d))) = DISABLED /\
  delete_buttons (contents (output_text (snd (display_all_recipes d))))
  = map Row.select (recipes (repository (app d))).
Proof.
  apply (listing_shows_a_delete_button_per_row
           (mkDesk (snd (save_recipe counting_update MoreExamples.stew
                           (snd (save_recipe counting_update soup fresh_app))))
              (mkText NORMAL [Text "stale"]))).
  split; reflexivity.
Defined.

(** X26: the delete callback.  Declined, it changes nothing.  Confirmed
    on an open store whose observers do not raise, with a recipe whose
    title the driver takes (it holds no NUL), it returns, the rows of that
    title are gone from the table, and the refreshed widget has a "Delete"
    button for each row that is left and for no other: none of its buttons
    bears the deleted title. *)
Theorem confirmed_delete_refreshes_the_listing {V : Type} (update : Observer -> Py V unit)
    (recipe : Row.listed) (d : Desk V) :
  is_open (repository (app d)) ->
  quiet update (observers (repository (app d))) ->
  has_nul (Row.item0 recipe) = false ->
  delete_recipe_callback update false recipe d = (inr tt, d) /\
  fst (delete_recipe_callback update true recipe d) = inr tt /\
  recipes (repository (app (snd (delete_recipe_callback update true recipe d))))
  = other_titles (Row.item0 recipe) (recipes (repository (app d))) /\
  delete_buttons (contents (output_text (snd (delete_recipe_callback update true recipe d))))
  = map Row.select (other_titles (Row.item0 recipe) (recipes (repository (app d)))) /\
  (forall button,
      In button (delete_buttons
                   (contents (output_text (snd (delete_recipe_callback update true recipe d))))) ->
      Row.item0 button <> Row.item0 recipe).
Proof.
  intros Hopen Hq Hnul. split; [reflexivity|].
  destruct (delete_recipe_quiet update recipe (app d) Hopen Hq Hnul) as (Hok & Hrepo & _).
  assert (Hrun : delete_recipe_callback update true recipe d
                 = display_all_recipes
                     (mkDesk (snd (delete_recipe update recipe (app d))) (output_text d))).
  { unfold delete_recipe_callback, bind, on_repository.
    destruct (delete_recipe update recipe (app d)) as [r a']. simpl in Hok. now subst r. }
  assert (Hopen' : is_open (repository (snd (delete_recipe update recipe (app d)))))
    by (rewrite Hrepo; exact Hopen).
  destruct (listing_rows (mkDesk (snd (delete_recipe update recipe (app d))) (output_text d))
              Hopen') as (H1 & H2 & H3).
  rewrite Hrun. simpl in H2, H3.
  assert (Hbuttons :
            delete_buttons
              (contents (output_text
                 (snd (display_all_recipes
                         (mkDesk (snd (delete_recipe update recipe (app d))) (output_text d))))))
            = map Row.select (other_titles (Row.item0 recipe) (recipes (repository (app d))))).
  { rewrite H3, Hrepo. reflexivity. }
  split; [exact H1|]. split; [rewrite H2, Hrepo; reflexivity|]. split; [exact Hbuttons|].
  intros button Hin. rewrite Hbuttons in Hin.
  apply in_map_iff in Hin as (row & <- & Hrow).
  apply other_titles_In in Hrow as [_ Ht]. exact Ht.
Qed.

Lemma confirmed_delete_refreshes_the_listing_witness :
  let d := mkDesk (snd (save_recipe counting_update MoreExamples.stew
                          (snd (save_recipe counting_update soup fresh_app))))
             (mkText DISABLED []) in
  let recipe := Row.select (soup_row 1) in
  delete_recipe_callback counting_update false recipe d = (inr tt, d) /\
  fst (delete_recipe_callback counting_update true recipe d) = inr tt /\
  recipes (repository (app (snd (delete_recipe_callback counting_update true recipe d))))
  = other_titles (Row.item0 recipe) (recipes (repository (app d))) /\
  delete_buttons
    (contents (output_text (snd (delete_recipe_callback counting_update true recipe d))))
  = map Row.select (other_titles (Row.item0 recipe) (recipes (repository (app d)))) /\
  (forall button,
      In button (delete_buttons
                   (contents (output_text
                      (snd (delete_recipe_callback counting_update true recipe d))))) ->
      Row.item0 button <> Row.item0 recipe).
Proof.
  apply (confirmed_delete_refreshes_the_listing counting_update (Row.select (soup_row 1))
           (mkDesk (snd (save_recipe counting_update MoreExamples.stew
                           (snd (save_recipe counting_update soup fresh_app))))
              (mkText DISABLED []))).
  - split; reflexivity.
  - intros o v [].
  - reflexivity.
Defined.

(** X27: when [delete_recipe] raises, the callback raises the same
    exception and does not refresh the listing: the widget is what it was,
    whatever the delete has done to the table by then. *)
Theorem failed_delete_leaves_the_listing_stale {V : Type} (update : Observer -> Py V unit)
    (recipe : Row.listed) (d : Desk V) (e : exn) :
  fst (delete_recipe update recipe (app d)) = inl e ->
  delete_recipe_callback update true recipe d
  = (inl e, mkDesk (snd (delete_recipe update recipe (app d))) (output_text d)).
Proof.
  intros Hraise. unfold delete_recipe_callback, bind, on_repository.
  destruct (delete_recipe update recipe (app d)) as [r a']. simpl in *. now subst r.
Qed.

Lemma failed_delete_leaves_the_listing_stale_witness :
  let d := mkDesk (snd (register_observer 13%nat
                          (snd (save_recipe MoreExamples.grumpy_update soup fresh_app))))
             (mkText DISABLED [Text "Recipe 1"; DeleteButton (Row.select (soup_row 1))]) in
  delete_recipe_callback MoreExamples.grumpy_update true (Row.select (soup_row 1)) d
  = (inl (Exn "RuntimeError" "the view is gone" None),
     mkDesk (snd (delete_recipe MoreExamples.grumpy_update (Row.select (soup_row 1)) (app d)))
       (output_text d)).
Proof.
  apply (failed_delete_leaves_the_listing_stale MoreExamples.grumpy_update
           (Row.select (soup_row 1))
           (mkDesk (snd (register_observer 13%nat
                           (snd (save_recipe MoreExamples.grumpy_update soup fresh_app))))
              (mkText DISABLED [Text "Recipe 1"; DeleteButton (Row.select (soup_row 1))]))).
  reflexivity.
Defined.

End ViewMore.
